(** * piecash: the ledger validation engine, sessions and price updates

    A shallow embedding of [piecash/core/commodity.py] and
    [piecash/core/session.py], together with the transaction validation
    protocol that [session.validate_book] drives.

    Conventions.
    - A Python call that may raise is a value of [result]; code that also
      mutates objects lives in the monad [M S], whose state survives an
      exception, as Python's does.
    - Objects are compared the way Python compares them: by identity, which
      is the [guid] every persisted object carries.
    - Amounts are integers counting the smallest unit of the commodity they
      are expressed in (the numerator over the commodity's [fraction]).
    - A [datetime] is a number of seconds, a [date] a number of days;
      [datetime.date()] is the floor division by the length of a day. *)

From Stdlib Require Import ZArith QArith_base Lia.
From stdpp Require Import base option list strings pretty gmap fin_maps fin_sets.

Local Open Scope Z_scope.

(** ** Exceptions and computations *)

Inductive exn : Type :=
  (* raised by the code under piecash/core *)
  | GnucashException (msg : string)
  | GncCommodityError (msg : string)
  | GncPriceError (msg : string)
  | ValueError (msg : string)
  | AssertionError (msg : string)
  | KeyError (key : string)
  (* sqlalchemy's Query.one *)
  | NoResultFound
  | MultipleResultsFound
  (* whatever a market-data provider raises *)
  | ProviderError (msg : string)
  (* what shutil.copyfile raises *)
  | OSError (msg : string)
  (* the validation engine's error kinds *)
  | InvalidTransactionCurrency
  (* the currency of a stored transaction has been changed *)
  | CurrencyChanged
  (* [quantity = None] is the missing-quantity variant *)
  | QuantityValueMismatch (quantity : option Z) (value : Z)
  | QuantitySignMismatch (quantity value : Z)
  | ImbalancedTransaction (residual : Z)
  (* the quantities of a commodity still do not net after the correction *)
  | QuantityImbalance (commodity : string) (residual : Z).

Inductive result (A : Type) : Type :=
  | Ok (a : A)
  | Raise (e : exn).
Arguments Ok {A} a.
Arguments Raise {A} e.

Definition raises {A} (r : result A) : Prop :=
  match r with Raise _ => True | Ok _ => False end.

Definition succeeds {A} (r : result A) : Prop :=
  match r with Ok _ => True | Raise _ => False end.

#[global] Instance result_ret : MRet result := fun _ a => Ok a.
#[global] Instance result_bind : MBind result := fun _ _ f r =>
  match r with Ok a => f a | Raise e => Raise e end.

(** Stateful computations: the state is returned in both outcomes. *)
Definition M (S A : Type) : Type := S -> result A * S.

Definition m_ret {S A} (a : A) : M S A := fun s => (Ok a, s).
Definition m_bind {S A B} (c : M S A) (k : A -> M S B) : M S B := fun s =>
  match c s with
  | (Ok a, s') => k a s'
  | (Raise e, s') => (Raise e, s')
  end.
Definition m_raise {S A} (e : exn) : M S A := fun s => (Raise e, s).
Definition m_get {S} : M S S := fun s => (Ok s, s).
Definition m_modify {S} (f : S -> S) : M S unit := fun s => (Ok tt, f s).
Definition m_lift {S A} (r : result A) : M S A := fun s => (r, s).

Notation "'let*' x ':=' c 'in' k" := (m_bind c (fun x => k))
  (at level 10, x name, c at level 100, k at level 200, only parsing).
Notation "c ';;;' k" := (m_bind c (fun _ => k))
  (at level 100, k at level 200, only parsing).

(** [for x in l: body x] *)
Fixpoint m_for {S A} (l : list A) (body : A -> M S unit) : M S unit :=
  match l with
  | [] => m_ret tt
  | x :: l' => body x ;;; m_for l' body
  end.

(** Closes a goal about the members of an empty list. *)
Ltac no_rows := let p := fresh in let Hp := fresh in
  intros p Hp; by apply elem_of_nil in Hp.

(** Python truthiness of an optional string: [None] and the empty string
    are false. *)
Definition truthy (o : option string) : bool :=
  match o with
  | None => false
  | Some s => if decide (s = EmptyString) then false else true
  end.

(** ** Dates *)

Definition date := Z.
Definition datetime := Z.
Definition seconds_per_day : Z := 86400.
(** [dt.date()] *)
Definition date_of (dt : datetime) : date := dt / seconds_per_day.
(** [datetime.datetime.strptime(text, "%Y-%m-%d")]: midnight of that day. *)
Definition midnight (d : date) : datetime := d * seconds_per_day.

(** ** commodity.py *)

Module Commodity.

Record Commodity : Type := mkCommodity {
  guid : string;
  namespace : string;
  mnemonic : string;
  fullname : string;
  fraction : Z;
  cusip : string;
  quote_flag : Z;
  quote_source : string;
  quote_tz : option string;
  (* the key/value slots reached by [self.get(key, default)] *)
  slots : gmap string string;
}.

(** [a == b] on mapped objects is identity. *)
Definition same (a b : Commodity) : bool := bool_decide (guid a = guid b).

(** [Commodity.__init__], the [book.session.add(self)] apart. *)
Definition init (g ns mn fn : string) (frac : Z) (cus : string) (qf : Z)
    (qs : option string) (qtz : option string) : Commodity :=
  let qs' := match qs with
             | Some s => s
             | None => if decide (ns = "CURRENCY") then "currency" else "yahoo"
             end in
  mkCommodity g ns mn fn frac cus qf qs' qtz ∅.

Record Price : Type := mkPrice {
  commodity_guid : string;
  currency_guid : string;
  p_date : datetime;
  p_source : string;
  p_type : string;
  p_value : Q;
}.

(** [Price.__init__] with its defaults [type="unknown"], [source="user:price"]. *)
Definition new_price (commodity currency : Commodity) (d : datetime) (v : Q)
    (type : option string) : Price :=
  mkPrice (guid commodity) (guid currency) d "user:price"
          (default "unknown" type) v.

(** The part of [Book] that commodity.py reads.  [currencies] is the
    [book.currencies(mnemonic=...)] lookup, which raises when nothing
    matches. *)
Record Book : Type := mkBook {
  default_currency : Commodity;
  currencies : string -> result Commodity;
}.

(** What the providers are asked, in order. *)
Inductive request : Type :=
  | QuandlFx (mnemonic base : string) (start : date)
  | YahooShare (symbol : string)
  | YahooHistorical (symbol : string) (start stop : date).

(** The state [update_prices] runs in: the book each object is linked to
    (the [book] attribute of a mapped object, [None] for an object outside
    any session), the price rows of the database, the [Price] objects
    constructed since and not stored yet, the clock, and the two providers
    together with a log of the requests sent to them. *)
Record World : Type := mkWorld {
  w_book_of : string -> option Book;
  (* the rows of the prices table, which the [self.prices] query reads *)
  w_prices : list Price;
  (* the objects [Price(...)] has constructed; no statement of
     commodity.py stores them *)
  w_created : list Price;
  w_today : date;
  quandl_fx : string -> string -> date -> result (list (date * Q));
  yahoo_share : string -> result string;
  yahoo_historical : string -> date -> date -> result (list (date * Q));
  w_requests : list request;
}.

(** [self.book] *)
Definition book_of (w : World) (self : Commodity) : option Book :=
  w_book_of w (guid self).

Definition no_base_currency_msg (mn : string) : string :=
  "The commodity '" +:+ mn +:+ "' has no information about its base currency. "
  +:+ "Add a kvp item named 'quoted_currency' with the mnemonic of the "
  +:+ "currency to have proper behavior".

Definition base_currency (w : World) (self : Commodity) : result Commodity :=
  match book_of w self with
  | None =>
      Raise (GnucashException
        "The commodity should be linked to a session to have a 'base_currency'")
  | Some b =>
      if decide (namespace self = "CURRENCY") then Ok (default_currency b)
      else
        let mnemonic' := slots self !! "quoted_currency" in
        if truthy mnemonic' then currencies b (default EmptyString mnemonic')
        else Raise (GnucashException (no_base_currency_msg (mnemonic self)))
  end.

(** [self.prices], a query ([lazy="dynamic"]): the rows of this commodity
    in the database. *)
Definition prices_of (w : World) (self : Commodity) : list Price :=
  filter (fun p => commodity_guid p = guid self) (w_prices w).

(** [query.order_by(-Price.date).limit(1).first()] *)
Fixpoint latest (l : list Price) : option Price :=
  match l with
  | [] => None
  | p :: l' =>
      match latest l' with
      | Some q => if bool_decide (p_date p < p_date q) then Some q else Some p
      | None => Some p
      end
  end.

(** [Price(...)] as a statement: the object is constructed, and that is
    all. *)
Definition add_price (p : Price) : M World unit :=
  m_modify (fun w => mkWorld (w_book_of w) (w_prices w) (w_created w ++ [p])
                             (w_today w) (quandl_fx w) (yahoo_share w)
                             (yahoo_historical w) (w_requests w)).

Definition log_request (r : request) : M World unit :=
  m_modify (fun w => mkWorld (w_book_of w) (w_prices w) (w_created w)
                             (w_today w) (quandl_fx w) (yahoo_share w)
                             (yahoo_historical w) (w_requests w ++ [r])).

(** The session storing the objects constructed so far, as a flush that
    reaches them does: from then on the [self.prices] query returns them. *)
Definition store_created (w : World) : World :=
  mkWorld (w_book_of w) (w_prices w ++ w_created w) [] (w_today w)
          (quandl_fx w) (yahoo_share w) (yahoo_historical w) (w_requests w).

Definition update_prices (self : Commodity) (start_date : option date)
    : M World unit :=
  let* w := m_get in
  match book_of w self with
  | None =>
      m_raise (GncPriceError
        "Cannot update price for a commodity not attached to a book")
  | Some book =>
      (* get last_price updated *)
      let last_price := latest (prices_of w self) in
      let start_date := match start_date with
                        | Some d => d
                        | None => w_today w + -7
                        end in
      let start_date := match last_price with
                        | Some last_price =>
                            Z.max (date_of (p_date last_price) + 1) start_date
                        | None => start_date
                        end in
      if decide (namespace self = "CURRENCY") then
        let* default_currency := m_lift (base_currency w self) in
        if same default_currency self then
          m_raise (GncPriceError "Cannot update exchange rate for base currency")
        else
          log_request (QuandlFx (mnemonic self) (mnemonic default_currency)
                                start_date) ;;;
          let* quotes := m_lift (quandl_fx w (mnemonic self)
                                   (mnemonic default_currency) start_date) in
          m_for quotes (fun q =>
            add_price (new_price self default_currency (midnight q.1) q.2 None))
      else
        let symbol := mnemonic self in
        log_request (YahooShare symbol) ;;;
        let* share_currency := m_lift (yahoo_share w symbol) in
        let* currency := m_lift (currencies book share_currency) in
        log_request (YahooHistorical symbol start_date (w_today w)) ;;;
        let* quotes := m_lift (yahoo_historical w symbol start_date (w_today w)) in
        m_for quotes (fun q =>
          add_price (new_price self currency (midnight q.1) q.2 (Some "last")))
  end.

(** *** Vocabulary for the statements about [update_prices] *)

(** The world with some prices created and some requests sent, nothing
    else touched. *)
Definition extend (w : World) (ps : list Price) (rs : list request) : World :=
  mkWorld (w_book_of w) (w_prices w) (w_created w ++ ps) (w_today w)
          (quandl_fx w) (yahoo_share w) (yahoo_historical w) (w_requests w ++ rs).

(** The providers return no quote dated before the start they are asked for. *)
Definition honours_start (w : World) : Prop :=
  (forall a b start qs, quandl_fx w a b start = Ok qs ->
     forall q, q ∈ qs -> start <= q.1) /\
  (forall sym start stop qs, yahoo_historical w sym start stop = Ok qs ->
     forall q, q ∈ qs -> start <= q.1).

Definition request_start (r : request) : option date :=
  match r with
  | QuandlFx _ _ start => Some start
  | YahooShare _ => None
  | YahooHistorical _ start _ => Some start
  end.

(** The start date the caller asks for, today minus seven days by default. *)
Definition requested_start (w : World) (start_date : option date) : date :=
  match start_date with Some d => d | None => w_today w + -7 end.

(** The later of the requested start and the day after the most recent
    stored price of the commodity, when it has one. *)
Definition effective_start (w : World) (self : Commodity)
    (start_date : option date) : date :=
  match latest (prices_of w self) with
  | Some last_price =>
      Z.max (date_of (p_date last_price) + 1) (requested_start w start_date)
  | None => requested_start w start_date
  end.
Arguments effective_start : simpl never.

(** The two situations in which [update_prices] gives up before it asks a
    provider anything. *)
Definition prefetch_failure (w : World) (self : Commodity) : Prop :=
  book_of w self = None \/
  (exists b, book_of w self = Some b /\ namespace self = "CURRENCY" /\
             same (default_currency b) self = true).

(** The reading under which a second run of the same fetch, whenever it is
    made, creates no price for a moment the first run has created one
    for. *)
Definition rerun_adds_no_duplicates : Prop :=
  forall self start w added1 rs1 added2 rs2,
    honours_start w ->
    (update_prices self start w).2 = extend w added1 rs1 ->
    (update_prices self start (extend w added1 rs1)).2
    = extend (extend w added1 rs1) added2 rs2 ->
    forall p q, p ∈ added1 -> q ∈ added2 -> p_date p <> p_date q.

(** The reading of [base_currency] under which any 'quoted_currency' slot
    is followed. *)
Definition base_currency_follows_slot : Prop :=
  forall w self b m,
    book_of w self = Some b -> namespace self <> "CURRENCY" ->
    slots self !! "quoted_currency" = Some m ->
    base_currency w self = currencies b m.

End Commodity.

(** ** Transactions and their validation

    [piecash/core/transaction.py] and [piecash/core/account.py] are not
    among the sources at hand; their data model and [Transaction.validate]
    are taken from the specification (sections 3, 4.4 and 4.6), completed
    by what the tests of [tests/test_transaction.py] show of them. *)

Module Transaction.

Abbreviation Commodity := Commodity.Commodity.

(** Modelled from the spec: the [Account] class (account.py), reduced to
    the attributes validation reads: a name, a type tag and exactly one
    commodity. *)
Record Account : Type := mkAccount {
  a_name : string;
  a_type : string;
  a_commodity : Commodity;
}.

(** Modelled from the spec: the [Split] class (transaction.py): one leg of a
    transaction; [value] is in the transaction's currency, [quantity] in the
    commodity of the account and may be left unset. *)
Record Split : Type := mkSplit {
  s_account : Account;
  s_value : Z;
  s_quantity : option Z;
  s_memo : string;
}.

(** Modelled from the spec: the [Transaction] class (transaction.py).
    [t_old_currency] is the history of the [currency] attribute: the
    currency the transaction was stored with when another has been
    assigned since ([tr.currency = ...] in test_create_cdtytransaction),
    [None] otherwise. *)
Record Transaction : Type := mkTransaction {
  t_guid : string;
  t_currency : Commodity;
  t_description : string;
  t_splits : list Split;
  t_old_currency : option Commodity;
}.

Definition split_commodity (sp : Split) : Commodity := a_commodity (s_account sp).

Definition in_currency (cur : Commodity) (sp : Split) : bool :=
  Commodity.same (split_commodity sp) cur.

Definition set_quantity (sp : Split) (q : Z) : Split :=
  mkSplit (s_account sp) (s_value sp) (Some q) (s_memo sp).

Definition set_splits (tx : Transaction) (l : list Split) : Transaction :=
  mkTransaction (t_guid tx) (t_currency tx) (t_description tx) l
                (t_old_currency tx).

(** Modelled from the spec: the running total [value_sum] of section 4.4. *)
Definition value_sum (l : list Split) : Z :=
  foldr (fun sp acc => s_value sp + acc) 0 l.

(** Modelled from the spec: the running total [quantity_sum] of section 4.4
    for one commodity; an unset quantity counts for nothing. *)
Definition quantity_sum (c : Commodity) (l : list Split) : Z :=
  foldr (fun sp acc =>
           if Commodity.same (split_commodity sp) c
           then default 0 (s_quantity sp) + acc else acc) 0 l.

(** Modelled from the spec: the value of the splits of one commodity, the
    share of that commodity in [value_sum]. *)
Definition commodity_value_sum (c : Commodity) (l : list Split) : Z :=
  foldr (fun sp acc =>
           if Commodity.same (split_commodity sp) c
           then s_value sp + acc else acc) 0 l.

(** Modelled from the spec: the distinct commodities present among the
    splits (section 4.4), each once, in order of first appearance. *)
Fixpoint split_commodities (seen : list string) (l : list Split)
    : list Commodity :=
  match l with
  | [] => []
  | sp :: l' =>
      let c := split_commodity sp in
      if bool_decide (Commodity.guid c ∈ seen) then split_commodities seen l'
      else c :: split_commodities (Commodity.guid c :: seen) l'
  end.

(** Modelled from the spec: the commodities of step 4 of section 4.4, those
    other than the transaction currency [cur] that appear among the splits,
    each once, in order of first appearance. *)
Fixpoint foreign_commodities (cur : Commodity) (seen : list string)
    (l : list Split) : list Commodity :=
  match l with
  | [] => []
  | sp :: l' =>
      let c := split_commodity sp in
      if Commodity.same c cur then foreign_commodities cur seen l'
      else if bool_decide (Commodity.guid c ∈ seen)
           then foreign_commodities cur seen l'
           else c :: foreign_commodities cur (Commodity.guid c :: seen) l'
  end.

(** Modelled from the spec: step 1 of section 4.4 of [Transaction.validate];
    a currency that passes it is then refused when it replaces the
    currency the transaction was stored with (test_create_cdtytransaction:
    changing the currency of an existing transaction is not allowed). *)
Definition check_currency (tx : Transaction) : result unit :=
  if decide (Commodity.namespace (t_currency tx) = "CURRENCY") then
    match t_old_currency tx with
    | Some old =>
        if Commodity.same old (t_currency tx) then Ok tt
        else Raise CurrencyChanged
    | None => Ok tt
    end
  else Raise InvalidTransactionCurrency.

(** Modelled from the spec: step 2 of section 4.4, for one split. *)
Definition check_split (cur : Commodity) (sp : Split) : result Split :=
  if in_currency cur sp then
    match s_quantity sp with
    | None => Ok (set_quantity sp (s_value sp))
    | Some q =>
        if decide (q = s_value sp) then Ok sp
        else Raise (QuantityValueMismatch (Some q) (s_value sp))
    end
  else
    match s_quantity sp with
    | None => Raise (QuantityValueMismatch None (s_value sp))
    | Some q =>
        if decide (s_value sp = 0) then Ok sp
        else if decide (Z.sgn q = Z.sgn (s_value sp)) then Ok sp
        else Raise (QuantitySignMismatch q (s_value sp))
    end.

(** Modelled from the spec: step 2 of section 4.4 over the splits of the
    transaction, in order, the first violation raising. *)
Fixpoint check_splits (cur : Commodity) (l : list Split) : result (list Split) :=
  match l with
  | [] => Ok []
  | sp :: l' =>
      sp' ← check_split cur sp;
      l'' ← check_splits cur l';
      Ok (sp' :: l'')
  end.

(** Modelled from the spec: step 3 of section 4.4. *)
Definition check_value_balance (l : list Split) : result unit :=
  if decide (value_sum l = 0) then Ok tt
  else Raise (ImbalancedTransaction (value_sum l)).

(** Modelled from the spec: the requirement of step 4 of section 4.4, that
    the quantities of each of the commodities [cs] sum to zero. *)
Fixpoint check_quantities (cs : list Commodity) (l : list Split) : result unit :=
  match cs with
  | [] => Ok tt
  | c :: cs' =>
      if decide (quantity_sum c l = 0) then check_quantities cs' l
      else Raise (QuantityImbalance (Commodity.mnemonic c) (quantity_sum c l))
  end.

(** Modelled from the spec: step 4 of section 4.4 as a check, over every
    commodity of the splits but the transaction currency. *)
Definition check_quantity_balance (cur : Commodity) (l : list Split) : result unit :=
  check_quantities (foreign_commodities cur [] l) l.

(** Modelled from the spec: the trading account of a commodity, looked up
    or created under the reserved trading root by commodity. *)
Definition trading_account (c : Commodity) : Account :=
  mkAccount (Commodity.mnemonic c) "TRADING" c.

(** Modelled from the spec: the auto-correction of step 4 of section 4.4.
    The splits it creates are fixed by
    test_create_cdtytransaction_tradingaccount: after the flush the
    quantities of every commodity of the transaction net, the transaction
    currency included, and so do the values, the splits of the caller being
    left alone; so each commodity whose splits do not net gets one split on
    its trading account, with the opposite of their value and of their
    quantity. *)
Definition trading_splits (l : list Split) : list Split :=
  omap (fun c =>
          if decide (commodity_value_sum c l = 0 /\ quantity_sum c l = 0)
          then None
          else Some (mkSplit (trading_account c) (- commodity_value_sum c l)
                             (Some (- quantity_sum c l)) EmptyString))
       (split_commodities [] l).

(** Modelled from the spec: [Transaction.validate] (transaction.py), the
    steps of section 4.4 in order, the first violated one raising; with
    trading accounts the correction is applied once and the balance
    checked again (section 4.6). *)
Definition validate (use_trading_accounts : bool) (tx : Transaction)
    : result Transaction :=
  let cur := t_currency tx in
  _ ← check_currency tx;
  l ← check_splits cur (t_splits tx);
  _ ← check_value_balance l;
  if use_trading_accounts then
    let l' := l ++ trading_splits l in
    _ ← check_value_balance l';
    _ ← check_quantity_balance cur l';
    Ok (set_splits tx l')
  else Ok (set_splits tx l).

(** *** Vocabulary for the statements about [validate] *)

(** What step 2 requires of a split. *)
Definition consistent (cur : Commodity) (sp : Split) : Prop :=
  if in_currency cur sp then s_quantity sp = Some (s_value sp)
  else exists q, s_quantity sp = Some q /\
                 (s_value sp = 0 \/ Z.sgn q = Z.sgn (s_value sp)).

(** What validation makes of one split [sp] of the transaction. *)
Definition validated_as (cur : Commodity) (sp sp' : Split) : Prop :=
  s_account sp' = s_account sp /\ s_value sp' = s_value sp /\
  s_memo sp' = s_memo sp /\
  if in_currency cur sp
  then s_quantity sp' = Some (s_value sp) /\
       (s_quantity sp = None \/ s_quantity sp = Some (s_value sp))
  else exists q, s_quantity sp = Some q /\ s_quantity sp' = Some q /\
                 (s_value sp = 0 \/ Z.sgn q = Z.sgn (s_value sp)).

(** The reading under which a nonzero sum always surfaces as the imbalance
    error, whatever else is wrong with the transaction. *)
Definition imbalance_always_reported : Prop :=
  forall use tx,
    value_sum (t_splits tx) <> 0 ->
    validate use tx = Raise (ImbalancedTransaction (value_sum (t_splits tx))).

End Transaction.

(** ** session.py *)

Module Session.

Abbreviation Transaction := Transaction.Transaction.
Abbreviation Book := Commodity.Book.

Definition version_supported : gmap string Z :=
  list_to_map
    [("Gnucash-Resave", 19920); ("invoices", 3); ("books", 1); ("accounts", 1);
     ("slots", 3); ("taxtables", 2); ("lots", 2); ("orders", 1); ("vendors", 1);
     ("customers", 2); ("jobs", 1); ("transactions", 3); ("Gnucash", 2060400);
     ("budget_amounts", 1); ("billterms", 2); ("recurrences", 2); ("entries", 3);
     ("prices", 2); ("schedxactions", 1); ("splits", 4); ("taxtable_entries", 3);
     ("employees", 2); ("commodities", 1); ("budgets", 1)].

(** [k in s] on two strings: [k] occurs in [s]. *)
Fixpoint occurs_in (k s : string) : bool :=
  String.prefix k s ||
  match s with
  | EmptyString => false
  | String _ s' => occurs_in k s'
  end.

(** One database, as reached through an engine. *)
Record Database : Type := mkDatabase {
  engine_name : string;
  (* rows (hostname, pid) of the gnclock table *)
  gnclock : list (string * Z);
  (* the versions table; table_name is its primary key *)
  versions : gmap string Z;
  (* the rows of the books table *)
  books : list Book;
  (* the transactions, with their splits *)
  transactions : gmap string Transaction;
}.

(** What lies outside the process: the databases by connection string, the
    clock as [open_book] formats it, the file copies made so far, and the
    file system as [shutil.copyfile(src, dst)] meets it: the call raises
    when [src] is no file that can be read or [dst] cannot be written. *)
Record Env : Type := mkEnv {
  databases : gmap string Database;
  now_stamp : string;
  copies : list (string * string);
  copyfile : string -> string -> result unit;
}.

Inductive change : Type := Dirty | New | Deleted.

(** A mapped object in a session: its identity and its
    [object_to_validate(change)] method, which yields transactions (by
    guid) or [None]. *)
Record object : Type := mkObject {
  o_guid : string;
  object_to_validate : change -> list (option string);
}.

Record Session : Type := mkSession {
  bind : string;
  book : option Book;
  (* [session.commit] has been replaced by [readonly_commit] *)
  commit_locked : bool;
  (* the transactions of the object graph, by guid *)
  heap : gmap string Transaction;
  new : list object;
  dirty : list object;
  deleted : list object;
  _is_modified : bool;
  (* the rows as written inside the open database transaction *)
  written : gmap string Transaction;
  (* the rows the database durably holds *)
  stored : gmap string Transaction;
}.

Definition set_heap (h : gmap string Transaction) (s : Session) : Session :=
  mkSession (bind s) (book s) (commit_locked s) h (new s) (dirty s) (deleted s)
            (_is_modified s) (written s) (stored s).

(** [Session(bind=engine)] *)
Definition new_session (uri : string) (db : Database) : Session :=
  mkSession uri None false (transactions db) [] [] [] false
            (transactions db) (transactions db).

(** [session.add(o)] *)
Definition add (o : object) (s : Session) : Session :=
  mkSession (bind s) (book s) (commit_locked s) (heap s) (new s ++ [o])
            (dirty s) (deleted s) (_is_modified s) (written s) (stored s).

(** An attribute of a loaded transaction is assigned: the graph changes and
    the object becomes dirty. *)
Definition modify (o : object) (tx : Transaction) (s : Session) : Session :=
  mkSession (bind s) (book s) (commit_locked s)
            (<[Transaction.t_guid tx := tx]> (heap s)) (new s)
            (dirty s ++ [o]) (deleted s) (_is_modified s) (written s) (stored s).

(** A transaction is constructed: it joins the graph, and the session's new
    objects by cascade. *)
Definition create (o : object) (tx : Transaction) (s : Session) : Session :=
  mkSession (bind s) (book s) (commit_locked s)
            (<[Transaction.t_guid tx := tx]> (heap s)) (new s ++ [o])
            (dirty s) (deleted s) (_is_modified s) (written s) (stored s).

(** The [is_saved] property. *)
Definition is_saved (s : Session) : bool :=
  negb (_is_modified s || bool_decide (dirty s <> [])
        || bool_decide (deleted s <> []) || bool_decide (new s <> [])).

(** [adapt_session] links session and book, replaces [session.commit] when
    [readonly] is set and resets [_is_modified]; the [after_flush] and
    [after_commit] listeners it installs are part of [write_pending] and
    [sa_commit] below.  The two closures [create_lock] and [delete_lock] it
    attaches act on the gnclock table only and are left out. *)
Definition adapt_session (session : Session) (b : Book) (readonly : bool)
    : Session :=
  mkSession (bind session) (Some b)
            (if readonly then true else commit_locked session)
            (heap session) (new session) (dirty session) (deleted session)
            false (written session) (stored session).

(** The transactions one change list asks to validate, [None] not yet
    discarded. *)
Definition yielded (c : change) (l : list object) : list (option string) :=
  l ≫= (fun o => object_to_validate o c).

(** The set [txs] of [validate_book] once [None] is discarded. *)
Definition to_validate (s : Session) : gset string :=
  list_to_set (omap id (yielded Dirty (dirty s) ++ yielded New (new s)
                        ++ yielded Deleted (deleted s))).

Section Flush.

(** [Transaction.validate], which raises or leaves the transaction as
    validation has completed it. *)
Variable validate : Transaction -> result Transaction.

(** [tx.validate()] on the transaction a reference denotes. *)
Definition validate_tx (g : string) : M Session unit :=
  let* s := m_get in
  match heap s !! g with
  | None => m_ret tt
  | Some tx =>
      let* tx' := m_lift (validate tx) in
      m_modify (set_heap (<[g := tx']> (heap s)))
  end.

Definition validate_book : M Session unit :=
  let* s := m_get in
  let txs := to_validate s in
  m_for (elements txs) validate_tx.

(** The unit of work: the image of every transaction the pending objects
    resolve to is written, the rows of deleted objects are removed, the
    [after_flush] listener sets [_is_modified] to [not is_saved], and the
    pending lists are emptied. *)
Definition write_pending (s : Session) : Session :=
  let txs := to_validate s in
  let w := foldr (fun g w => match heap s !! g with
                             | Some tx => <[g := tx]> w
                             | None => w
                             end) (written s) (elements txs) in
  let w' := foldr (fun o w => delete (o_guid o) w) w (deleted s) in
  mkSession (bind s) (book s) (commit_locked s) (heap s) [] [] []
            (negb (is_saved s)) w' (stored s).

(** [session.flush()]: the [before_flush] listener runs first. *)
Definition flush : M Session unit :=
  validate_book ;;; m_modify write_pending.

(** sqlalchemy's own [Session.commit]: flush, make the written rows
    durable, then the [after_commit] listener clears [_is_modified]. *)
Definition sa_commit : M Session unit :=
  flush ;;;
  m_modify (fun s =>
    mkSession (bind s) (book s) (commit_locked s) (heap s) (new s) (dirty s)
              (deleted s) false (written s) (written s)).

Definition readonly_commit : M Session unit :=
  m_raise (GnucashException "You cannot change the DB, it is locked !").

(** [session.commit()], whichever function the attribute holds. *)
Definition commit : M Session unit :=
  let* s := m_get in
  if commit_locked s then readonly_commit else sa_commit.

End Flush.

(** The body of the loop over [version_book.items()], assertions enabled.
    The source writes [k in ("Gnucash")]: the parentheses make no tuple, so
    this is the substring test of [k] in the string. *)
Definition check_version (kv : string * Z) : result unit :=
  let '(k, v) := kv in
  if occurs_in k "Gnucash" then Ok tt
  else
    match version_supported !! k with
    | None => Raise (KeyError k)
    | Some supported =>
        if decide (supported = v) then Ok tt
        else Raise (AssertionError
               ("Unsupported version for table " +:+ k +:+ " : got " +:+ pretty v
                +:+ ", supported " +:+ pretty supported))
    end.

Fixpoint check_versions (items : list (string * Z)) : result unit :=
  match items with
  | [] => Ok tt
  | kv :: items' => _ ← check_version kv; check_versions items'
  end.

(** [query(Book).one()] *)
Definition one {A} (l : list A) : result A :=
  match l with
  | [] => Raise NoResultFound
  | [x] => Ok x
  | _ => Raise MultipleResultsFound
  end.

Definition sqlite_prefix : string := "sqlite:///".

Definition record_copy (src dst : string) (e : Env) : Env :=
  mkEnv (databases e) (now_stamp e) (copies e ++ [(src, dst)]) (copyfile e).

(** The connection string [open_book] settles on. *)
Definition resolve_uri (sqlite_file uri_conn : option string) : result string :=
  match uri_conn with
  | Some u => Ok u
  | None =>
      if truthy sqlite_file
      then Ok (sqlite_prefix +:+ default EmptyString sqlite_file)
      else Raise (ValueError
             "One sqlite_file and uri_conn arguments should be given.")
  end.

Definition open_book (sqlite_file uri_conn : option string)
    (acquire_lock readonly open_if_lock do_backup : bool) : M Env Session :=
  let* uri_conn := m_lift (resolve_uri sqlite_file uri_conn) in
  let* e := m_get in
  match databases e !! uri_conn with
  | None =>
      m_raise (GnucashException
        ("Database '" +:+ uri_conn +:+ "' does not exist (please use create_book "
         +:+ "to create GnuCash books from scratch)"))
  | Some engine =>
      (if negb readonly && do_backup then
         if negb (bool_decide (engine_name engine = "sqlite")) then
           m_raise (GnucashException
             ("Cannot do a backup for engine '" +:+ engine_name engine
              +:+ "'. Do yourself a backup and then specify do_backup=False"))
         else if negb (String.prefix sqlite_prefix uri_conn) then
           m_raise (GnucashException
             ("Cannot create a backup for URI '" +:+ uri_conn +:+ "'"))
         else
           let url := String.substring (String.length sqlite_prefix)
                        (String.length uri_conn - String.length sqlite_prefix)%nat
                        uri_conn in
           let url_backup := url +:+ "." +:+ now_stamp e +:+ ".gnucash" in
           m_lift (copyfile e url url_backup) ;;;
           m_modify (record_copy url url_backup)
       else m_ret tt) ;;;
      let locks := gnclock engine in
      if bool_decide (locks <> []) && negb open_if_lock then
        m_raise (GnucashException "Lock on the file")
      else
        let s := new_session uri_conn engine in
        let version_book := versions engine in
        m_lift (check_versions (map_to_list version_book)) ;;;
        let* book := m_lift (one (books engine)) in
        m_ret (adapt_session s book readonly)
  end.

(** *** Vocabulary for the statements about sessions *)

Definition locked_msg : string := "You cannot change the DB, it is locked !".

(** [session.dirty], [session.new] or [session.deleted]. *)
Definition pending (s : Session) (c : change) : list object :=
  match c with Dirty => dirty s | New => new s | Deleted => deleted s end.

(** Changes a caller makes to the object graph between two commits. *)
Inductive mutation : Type :=
  | Add (o : object)
  | Create (o : object) (tx : Transaction)
  | Modify (o : object) (tx : Transaction).

Definition mutate (s : Session) (m : mutation) : Session :=
  match m with
  | Add o => add o s
  | Create o tx => create o tx s
  | Modify o tx => modify o tx s
  end.

(** The reading under which every row of the versions table is compared. *)
Definition every_version_row_checked : Prop :=
  forall sqlite_file uri_conn acquire_lock readonly open_if_lock do_backup e
         uri db k v,
    resolve_uri sqlite_file uri_conn = Ok uri ->
    databases e !! uri = Some db ->
    versions db !! k = Some v ->
    version_supported !! k <> Some v ->
    raises (open_book sqlite_file uri_conn acquire_lock readonly open_if_lock
              do_backup e).1.

End Session.

(** ** The objects of the test suite *)

Module Fixtures.

Import Commodity Transaction Session.

Definition EUR : Commodity :=
  Commodity.init "guid-EUR" "CURRENCY" "EUR" "Euro" 100 EmptyString 0 None None.
Definition USD : Commodity :=
  Commodity.init "guid-USD" "CURRENCY" "USD" "US Dollar" 100 EmptyString 0 None None.
(** a currency whose mnemonic is empty: the column only forbids NULL *)
Definition blank : Commodity :=
  Commodity.init "guid-blank" "CURRENCY" EmptyString "Unnamed" 100 EmptyString 0
                 None None.
Definition ACME : Commodity :=
  Commodity.init "guid-ACME" "NASDAQ" "ACME" "Acme Corp." 10000 EmptyString 0
                 None None.

Definition with_slot (c : Commodity) (key value : string) : Commodity :=
  mkCommodity (guid c) (namespace c) (mnemonic c) (fullname c) (fraction c)
              (cusip c) (quote_flag c) (quote_source c) (quote_tz c)
              (<[key := value]> (slots c)).

Definition ACME_in_EUR : Commodity := with_slot ACME "quoted_currency" "EUR".
Definition ACME_in_blank : Commodity := with_slot ACME "quoted_currency" EmptyString.
(** a commodity that was never added to the session *)
Definition GBP : Commodity :=
  Commodity.init "guid-GBP" "CURRENCY" "GBP" "Pound" 100 EmptyString 0 None None.

Fixpoint find_currency (l : list Commodity) (m : string) : result Commodity :=
  match l with
  | [] => Raise (KeyError m)
  | c :: l' =>
      if decide (namespace c = "CURRENCY" /\ mnemonic c = m) then Ok c
      else find_currency l' m
  end.

Definition book0 : Book := mkBook EUR (find_currency [EUR; USD; blank]).

(** One stored rate for USD, on day 100 at 15:00; today is day 110; the
    providers quote every day from the start asked for up to today. *)
Definition usd_price : Price :=
  mkPrice "guid-USD" "guid-EUR" (100 * 86400 + 54000) "user:price" "unknown" (9 # 10).

Definition world0 : World :=
  mkWorld (fun g => if decide (g ∈ ["guid-EUR"; "guid-USD"; "guid-ACME"])
                    then Some book0 else None)
    [usd_price] [] 110
    (fun _ _ start => Ok ((fun d => (d, 11 # 10)) <$> seqZ start (111 - start)))
    (fun _ => Ok "EUR")
    (fun _ start stop => Ok ((fun d => (d, 5 # 1)) <$> seqZ start (stop + 1 - start)))
    [].

Definition asset : Account := mkAccount "asset" "ASSET" EUR.
Definition exp : Account := mkAccount "exp" "EXPENSE" EUR.
Definition broker : Account := mkAccount "broker" "STOCK" ACME.

(** test_create_basictransaction, before and after the missing split *)
Definition tr_basic_imbalanced : Transaction :=
  mkTransaction "tr-basic" EUR "wire"
    [mkSplit asset 100 None "asset"; mkSplit exp (-10) None "exp"] None.
Definition tr_basic : Transaction :=
  mkTransaction "tr-basic" EUR "wire"
    [mkSplit asset 100 None "asset"; mkSplit exp (-10) None "exp";
     mkSplit exp (-90) None "missing exp"] None.

(** test_create_cdtytransaction, at its successive flushes *)
Definition tr_cdty (q : option Z) (rest : list Split) : Transaction :=
  mkTransaction "tr-cdty" EUR "buy stock"
    ([mkSplit asset 100 None "asset"; mkSplit broker (-90) q "brok"] ++ rest)
    None.

(** test_create_cdtytransaction, once saved: the currency is changed from
    EUR to USD *)
Definition tr_cdty_in_USD : Transaction :=
  mkTransaction "tr-cdty" USD "buy stock"
    [mkSplit asset 100 (Some 100) "asset";
     mkSplit broker (-90) (Some (-15)) "brok";
     mkSplit asset (-10) (Some (-10)) "missing asset corr"]
    (Some EUR).

(** test_create_cdtytransaction_cdtycurrency *)
Definition tr_cdtycurrency : Transaction :=
  mkTransaction "tr-cdtycur" ACME "buy stock"
    [mkSplit asset 100 (Some 10) "asset"; mkSplit broker (-100) (Some (-10)) "brok"]
    None.

(** test_create_cdtytransaction_tradingaccount, at its first flush *)
Definition tr_trading : Transaction :=
  mkTransaction "tr-trading" EUR "buy stock"
    [mkSplit asset 100 None "asset"; mkSplit broker (-100) (Some (-15)) "brok"]
    None.

(** the same once flushed, the quantity of the broker split raised by one *)
Definition tr_trading_changed : Transaction :=
  mkTransaction "tr-trading" EUR "buy stock"
    [mkSplit asset 100 (Some 100) "asset";
     mkSplit broker (-100) (Some (-14)) "brok";
     mkSplit (trading_account EUR) (-100) (Some (-100)) EmptyString;
     mkSplit (trading_account ACME) 100 (Some 15) EmptyString]
    None.

(** A transaction yields itself, a split the transaction it belongs to. *)
Definition transaction_object (tx : Transaction) : object :=
  mkObject (t_guid tx) (fun _ => [Some (t_guid tx)]).
Definition split_object (g : string) (tx : option Transaction) : object :=
  mkObject g (fun _ => [t_guid <$> tx]).

Definition uri0 : string := "sqlite:///book.gnucash".

Definition db_with (vs : gmap string Z) : Database :=
  mkDatabase "sqlite" [] vs [book0] ∅.

(** A file system in which exactly the files [files] can be copied. *)
Definition copy_among (files : list string) (src dst : string) : result unit :=
  if decide (src ∈ files) then Ok tt
  else Raise (OSError ("No such file or directory: '" +:+ src +:+ "'")).

Definition env_with (vs : gmap string Z) : Env :=
  mkEnv {[uri0 := db_with vs]} "20140101120000" [] (copy_among ["book.gnucash"]).

(** An empty book opened for writing. *)
Definition session0 : Session :=
  adapt_session (new_session uri0 (db_with version_supported)) book0 false.

(** A batch of one valid and one invalid new transaction, with a split of
    the first and a split that belongs to no transaction. *)
Definition batch_mixed : Session :=
  foldl mutate session0
    [Create (transaction_object tr_basic) tr_basic;
     Create (transaction_object (tr_cdty None [])) (tr_cdty None []);
     Add (split_object "sp-1" (Some tr_basic));
     Add (split_object "sp-2" None)].

Definition batch_valid : Session :=
  foldl mutate session0
    [Create (transaction_object tr_basic) tr_basic;
     Add (split_object "sp-1" (Some tr_basic));
     Add (split_object "sp-2" None)].

End Fixtures.

(** ** Sequences of session operations *)

Module Runs.

Import Session.

(** What a caller does with a session, one step after the other. *)
Inductive action : Type :=
  | Change (m : mutation)
  | Flush
  | Commit.

Section Run.

Variable validate : Transaction -> result Transaction.

(** The session after one step; a caller that catches the exception of a
    failed flush or commit goes on with the session as the failure left
    it. *)
Definition perform (s : Session) (a : action) : Session :=
  match a with
  | Change m => mutate s m
  | Flush => (flush validate s).2
  | Commit => (commit validate s).2
  end.

Definition run (s : Session) (acts : list action) : Session :=
  foldl perform s acts.

End Run.

(** No row has been written that is not stored, unless the session says it
    is modified. *)
Definition clean (s : Session) : Prop :=
  _is_modified s = false -> written s = stored s.

End Runs.

(** ** session.py: the database [create_book] starts from *)

Module CreateBook.

Import Session.

Definition memory_uri : string := "sqlite:///:memory:".

(** [drop_database(uri)] *)
Definition drop_database (uri : string) (e : Env) : Env :=
  mkEnv (delete uri (databases e)) (now_stamp e) (copies e) (copyfile e).

Section CreateBook.

(** The name of the engine that serves a connection string. *)
Variable dialect : string -> string.

(** [create_database(uri)]: a database without any table yet. *)
Definition create_database (uri : string) (e : Env) : Env :=
  mkEnv (<[uri := mkDatabase (dialect uri) [] ∅ [] ∅]> (databases e))
        (now_stamp e) (copies e) (copyfile e).

(** [create_book] up to and including [create_database]: the connection
    string it settles on and what becomes of a database that is already
    there.  The rest of [create_book] builds the schema and the first
    objects of the book through [Book] and [Account]. *)
Definition create_book_database (sqlite_file uri_conn : option string)
    (overwrite : bool) : M Env string :=
  let uri_conn :=
    match uri_conn with
    | Some u => u
    | None =>
        if truthy sqlite_file
        then sqlite_prefix +:+ default EmptyString sqlite_file
        else memory_uri
    end in
  (if bool_decide (uri_conn <> memory_uri) then
     let* e := m_get in
     (match databases e !! uri_conn with
      | Some _ =>
          if overwrite then m_modify (drop_database uri_conn)
          else m_raise (GnucashException
                 ("'" +:+ uri_conn +:+ "' db already exists"))
      | None => m_ret tt
      end) ;;;
     m_modify (create_database uri_conn)
   else m_ret tt) ;;;
  m_ret uri_conn.

End CreateBook.

End CreateBook.

(** ** More objects for the examples *)

Module MoreFixtures.

Import Commodity Transaction Session Fixtures.

(** The world of [world0] with every provider out of order. *)
Definition world_down : World :=
  mkWorld (w_book_of world0) (w_prices world0) [] (w_today world0)
    (fun _ _ _ => Raise (ProviderError "quandl is down"))
    (fun _ => Raise (ProviderError "yahoo is down"))
    (fun _ _ _ => Raise (ProviderError "yahoo is down"))
    [].

(** The world of [world0] where yahoo quotes ACME in a currency the book
    does not have. *)
Definition world_unknown_currency : World :=
  mkWorld (w_book_of world0) (w_prices world0) [] (w_today world0)
    (quandl_fx world0) (fun _ => Ok "XXX") (yahoo_historical world0) [].

(** A book locked by a running GnuCash. *)
Definition env_locked : Env :=
  mkEnv {[uri0 := mkDatabase "sqlite" [("host", 4242)] version_supported
                             [book0] ∅]}
        "20140101120000" [] (copy_among ["book.gnucash"]).

(** A book served by another engine than sqlite. *)
Definition env_postgres : Env :=
  mkEnv {["postgresql://localhost/book" :=
            mkDatabase "postgresql" [] version_supported [book0] ∅]}
        "20140101120000" [] (copy_among []).

(** A book held in memory: there is no file behind it. *)
Definition env_memory : Env :=
  mkEnv {["sqlite:///:memory:" := db_with version_supported]}
        "20140101120000" [] (copy_among []).

End MoreFixtures.

(** * Properties *)

(** ** Prices and base currencies *)

Module CommodityProps.
Import Commodity.

Lemma date_of_midnight d : date_of (midnight d) = d.
Proof. unfold date_of, midnight, seconds_per_day. apply Z.div_mul. lia. Qed.

Lemma date_of_mono a b : a <= b -> date_of a <= date_of b.
Proof. intros H. unfold date_of, seconds_per_day. apply Z.div_le_mono; lia. Qed.

Lemma latest_spec l q :
  latest l = Some q -> q ∈ l /\ forall p, p ∈ l -> p_date p <= p_date q.
Proof.
  revert q. induction l as [|p l IH]; intros q H; simpl in H; [discriminate|].
  destruct (latest l) as [q'|] eqn:E.
  - destruct (IH q' eq_refl) as [Hin Hmax].
    case_bool_decide; simplify_eq.
    + split; [by right|]. intros p' [->|Hp']%elem_of_cons; [lia|auto].
    + split; [by left|]. intros p' [->|Hp']%elem_of_cons; [lia|].
      specialize (Hmax _ Hp'). lia.
  - simplify_eq.
    destruct l as [|x l];
      [|simpl in E; destruct (latest l); [case_bool_decide|]; discriminate].
    split; [by left|]. intros p' [->|Hp']%elem_of_cons; [lia|].
    by apply elem_of_nil in Hp'.
Qed.

Lemma latest_none l : latest l = None -> l = [].
Proof.
  destruct l as [|p l]; [done|]. simpl.
  destruct (latest l); [case_bool_decide|]; discriminate.
Qed.

(** the rows a loop of [add_price] leaves *)
Lemma for_add_price {A} (f : A -> Price) (qs : list A) w :
  m_for qs (fun q => add_price (f q)) w =
  (Ok tt, mkWorld (w_book_of w) (w_prices w) (w_created w ++ map f qs) (w_today w)
                  (quandl_fx w) (yahoo_share w) (yahoo_historical w) (w_requests w)).
Proof.
  revert w. induction qs as [|q qs IH]; intros w; simpl.
  - unfold m_ret. rewrite app_nil_r. by destruct w.
  - unfold m_bind, add_price, m_modify. rewrite IH. simpl.
    by rewrite <- app_assoc.
Qed.


Lemma extend_nil w : extend w [] [] = w.
Proof. destruct w. unfold extend. simpl. by rewrite !app_nil_r. Qed.

Lemma prefetch_failure_detached w self :
  book_of w self = None -> prefetch_failure w self.
Proof. intros H. by left. Qed.

Lemma prefetch_failure_attached w self b :
  book_of w self = Some b ->
  prefetch_failure w self <->
  namespace self = "CURRENCY" /\ same (default_currency b) self = true.
Proof.
  intros Hb. unfold prefetch_failure. rewrite Hb. split.
  - intros [?|(b' & ? & ? & ?)]; simplify_eq. done.
  - intros [? ?]. right. eauto.
Qed.

(** Every run of [update_prices] only appends rows and requests. *)
Lemma update_prices_shape self start w :
  exists res ps rs,
    update_prices self start w = (res, extend w ps rs) /\
    (forall p, p ∈ ps ->
       commodity_guid p = guid self /\
       exists d, p_date p = midnight d /\
                 (honours_start w -> effective_start w self start <= d)) /\
    (forall r, r ∈ rs ->
       request_start r = None \/
       request_start r = Some (effective_start w self start)) /\
    (rs = [] <-> prefetch_failure w self) /\
    (prefetch_failure w self -> ps = [] /\ exists msg, res = Raise (GncPriceError msg)).
Proof.
  unfold update_prices, m_bind, m_get. cbv zeta.
  set (es := match latest (prices_of w self) with Some _ => _ | None => _ end).
  assert (Hes : es = effective_start w self start) by reflexivity.
  clearbody es. subst es.
  destruct (book_of w self) as [b|] eqn:Hb.
  2:{ pose proof (prefetch_failure_detached _ _ Hb) as Hpf.
      eexists _, [], []. rewrite extend_nil. unfold m_raise.
      split; [reflexivity|]. split_and!; [no_rows|no_rows|done|eauto]. }
  pose proof (prefetch_failure_attached _ _ _ Hb) as Hpf.
  case_decide as Hns.
  - unfold base_currency. rewrite Hb. rewrite decide_True by done.
    unfold m_lift at 1. simpl.
    destruct (same (default_currency b) self) eqn:Hsame.
    + eexists _, [], []. rewrite extend_nil. unfold m_raise.
      split; [reflexivity|].
      split_and!; [no_rows|no_rows|split; [intros _; by apply Hpf|done]|eauto].
    + assert (Hnpf : ~ prefetch_failure w self).
      { rewrite Hpf. intros [_ ?]. congruence. }
      unfold log_request, m_modify, m_lift. simpl.
      set (rq := QuandlFx _ _ _).
      destruct (quandl_fx w (mnemonic self) (mnemonic (default_currency b))
                  (effective_start w self start)) as [qs|e] eqn:Hq.
      * rewrite for_add_price. simpl.
        eexists (Ok tt), _, [rq]. split; [reflexivity|]. split_and!; [| |done|done].
        -- intros p (q & -> & Hin)%list_elem_of_fmap. split; [done|].
           exists q.1. split; [done|]. intros [H1 _]. eapply H1; eauto.
        -- intros r ->%list_elem_of_singleton. by right.
      * exists (Raise e), [], [rq]. unfold extend. simpl. rewrite app_nil_r.
        split; [reflexivity|]. split_and!; [no_rows| |done|done].
        intros r ->%list_elem_of_singleton. by right.
  - assert (Hnpf : ~ prefetch_failure w self).
    { rewrite Hpf. intros [? _]. congruence. }
    unfold log_request, m_modify, m_lift. simpl.
    set (rq := YahooShare _).
    destruct (yahoo_share w (mnemonic self)) as [cn|e] eqn:Hs.
    2:{ exists (Raise e), [], [rq]. unfold extend. simpl. rewrite app_nil_r.
        split; [reflexivity|]. split_and!; [no_rows| |done|done].
        intros r ->%list_elem_of_singleton. by left. }
    destruct (currencies b cn) as [cur|e] eqn:Hc.
    2:{ exists (Raise e), [], [rq]. unfold extend. simpl. rewrite app_nil_r.
        split; [reflexivity|]. split_and!; [no_rows| |done|done].
        intros r ->%list_elem_of_singleton. by left. }
    set (rq2 := YahooHistorical _ _ _).
    destruct (yahoo_historical w (mnemonic self) (effective_start w self start)
                (w_today w)) as [qs|e] eqn:Hq.
    + rewrite for_add_price. simpl.
      eexists (Ok tt), _, [rq; rq2]. unfold extend. simpl. rewrite <- app_assoc.
      split; [reflexivity|]. split_and!; [| |done|done].
      * intros p (q & -> & Hin)%list_elem_of_fmap. split; [done|].
        exists q.1. split; [done|]. intros [_ H2]. eapply H2; eauto.
      * intros r [->|Hr]%elem_of_cons; [by left|].
        apply list_elem_of_singleton in Hr as ->. by right.
    + exists (Raise e), [], [rq; rq2]. unfold extend. simpl.
      rewrite app_nil_r, <- app_assoc.
      split; [reflexivity|]. split_and!; [no_rows| |done|done].
      intros r [->|Hr]%elem_of_cons; [by left|].
      apply list_elem_of_singleton in Hr as ->. by right.
Qed.

Lemma effective_start_after_stored w self start p0 :
  p0 ∈ prices_of w self ->
  date_of (p_date p0) < effective_start w self start.
Proof.
  intros Hp0. unfold effective_start.
  destruct (latest (prices_of w self)) as [last|] eqn:E.
  - destruct (latest_spec _ _ E) as [_ Hmax].
    pose proof (date_of_mono _ _ (Hmax _ Hp0)). lia.
  - apply latest_none in E. rewrite E in Hp0. by apply elem_of_nil in Hp0.
Qed.

Lemma prices_of_store_created w self :
  prices_of (store_created w) self =
  prices_of w self ++ filter (fun p => commodity_guid p = guid self) (w_created w).
Proof. unfold prices_of, store_created. simpl. by rewrite filter_app. Qed.

Lemma honours_start_extend w ps rs : honours_start w -> honours_start (extend w ps rs).
Proof. intros [H1 H2]. split; simpl; eauto. Qed.

Lemma honours_start_store_created w : honours_start w -> honours_start (store_created w).
Proof. intros [H1 H2]. split; simpl; eauto. Qed.

(** Any stored price of the latest date fixes the start date. *)
Lemma effective_start_last w self start last :
  last ∈ prices_of w self ->
  (forall p, p ∈ prices_of w self -> p_date p <= p_date last) ->
  effective_start w self start =
    Z.max (date_of (p_date last) + 1)
          (match start with Some d => d | None => w_today w + -7 end).
Proof.
  intros Hin Hmax. unfold effective_start, requested_start.
  destruct (latest (prices_of w self)) as [q|] eqn:E.
  - destruct (latest_spec _ _ E) as [Hq Hq'].
    pose proof (Hmax _ Hq). pose proof (Hq' _ Hin).
    assert (p_date q = p_date last) as -> by lia. done.
  - apply latest_none in E. rewrite E in Hin. by apply elem_of_nil in Hin.
Qed.

(** The run of [update_prices] on a commodity attached to a book, outcome
    by outcome of the providers. *)
Lemma update_prices_attached self start w b :
  book_of w self = Some b ->
  update_prices self start w =
  let start' := effective_start w self start in
  if decide (namespace self = "CURRENCY") then
    if same (default_currency b) self then
      (Raise (GncPriceError "Cannot update exchange rate for base currency"), w)
    else
      let rq := QuandlFx (mnemonic self) (mnemonic (default_currency b)) start' in
      match quandl_fx w (mnemonic self) (mnemonic (default_currency b)) start' with
      | Ok qs =>
          (Ok tt, extend w ((fun q => new_price self (default_currency b)
                                        (midnight q.1) q.2 None) <$> qs) [rq])
      | Raise e => (Raise e, extend w [] [rq])
      end
  else
    let rq := YahooShare (mnemonic self) in
    match yahoo_share w (mnemonic self) with
    | Raise e => (Raise e, extend w [] [rq])
    | Ok cn =>
        match currencies b cn with
        | Raise e => (Raise e, extend w [] [rq])
        | Ok cur =>
            let rq2 := YahooHistorical (mnemonic self) start' (w_today w) in
            match yahoo_historical w (mnemonic self) start' (w_today w) with
            | Ok qs =>
                (Ok tt, extend w ((fun q => new_price self cur (midnight q.1) q.2
                                              (Some "last")) <$> qs) [rq; rq2])
            | Raise e => (Raise e, extend w [] [rq; rq2])
            end
        end
    end.
Proof.
  intros Hb. unfold update_prices, m_bind, m_get. cbv zeta.
  set (es := match latest (prices_of w self) with Some _ => _ | None => _ end).
  assert (Hes : es = effective_start w self start) by reflexivity.
  clearbody es. subst es. rewrite Hb.
  case_decide as Hns.
  - unfold base_currency. rewrite Hb. rewrite decide_True by done.
    unfold m_lift at 1. simpl.
    destruct (same (default_currency b) self); [done|].
    unfold log_request, m_modify, m_lift. simpl.
    destruct (quandl_fx w _ _ _) as [qs|e].
    + by rewrite for_add_price.
    + unfold extend. simpl. by rewrite app_nil_r.
  - unfold log_request, m_modify, m_lift. simpl.
    destruct (yahoo_share w _) as [cn|e].
    2:{ unfold extend. simpl. by rewrite app_nil_r. }
    destruct (currencies b cn) as [cur|e].
    2:{ unfold extend. simpl. by rewrite app_nil_r. }
    destruct (yahoo_historical w _ _ _) as [qs|e].
    + rewrite for_add_price. unfold extend. simpl. by rewrite <- app_assoc.
    + unfold extend. simpl. by rewrite app_nil_r, <- app_assoc.
Qed.

(** One run: rows are appended, never changed, and every new row is dated
    strictly after every row the commodity already had. *)
Lemma update_prices_appends self start w :
  exists added rs,
    (update_prices self start w).2 = extend w added rs /\
    (forall p, p ∈ added -> commodity_guid p = guid self) /\
    (forall r, r ∈ rs -> request_start r = None \/
                         request_start r = Some (effective_start w self start)) /\
    (honours_start w ->
     forall p p0, p ∈ added -> p0 ∈ prices_of w self ->
       date_of (p_date p0) < date_of (p_date p)).
Proof.
  destruct (update_prices_shape self start w)
    as (res & ps & rs & Heq & Hps & Hrs & _ & _).
  exists ps, rs. rewrite Heq. simpl. split_and!; [done| |done|].
  - intros p Hp. by destruct (Hps p Hp).
  - intros Hh p p0 Hp Hp0.
    destruct (Hps p Hp) as (_ & d & -> & Hd). rewrite date_of_midnight.
    specialize (Hd Hh).
    pose proof (effective_start_after_stored w self start p0 Hp0). lia.
Qed.

Lemma world0_honours_start : honours_start Fixtures.world0.
Proof.
  split; simpl.
  - intros _ _ start qs [= <-] q (d & -> & Hd)%list_elem_of_fmap.
    apply elem_of_seqZ in Hd. simpl. lia.
  - intros _ start stop qs [= <-] q (d & -> & Hd)%list_elem_of_fmap.
    apply elem_of_seqZ in Hd. simpl. lia.
Qed.

Example update_prices_usd_first_run :
  w_prices (update_prices Fixtures.USD None Fixtures.world0).2
  = w_prices Fixtures.world0 /\
  date_of ∘ p_date <$> w_created (update_prices Fixtures.USD None Fixtures.world0).2
  = [103; 104; 105; 106; 107; 108; 109; 110] /\
  w_requests (update_prices Fixtures.USD None Fixtures.world0).2
  = [QuandlFx "USD" "EUR" 103].
Proof. split_and!; reflexivity. Qed.

Example update_prices_usd_second_run_after_storing :
  let w1 := store_created (update_prices Fixtures.USD None Fixtures.world0).2 in
  date_of ∘ p_date <$> w_prices w1
  = [100; 103; 104; 105; 106; 107; 108; 109; 110] /\
  w_created (update_prices Fixtures.USD None w1).2 = [] /\
  w_requests (update_prices Fixtures.USD None w1).2
  = [QuandlFx "USD" "EUR" 103; QuandlFx "USD" "EUR" 111].
Proof. split_and!; reflexivity. Qed.

(** C7, as stated: the prices of the first run are constructed and not
    stored, so the query of the second run does not see them: run twice in
    a row for USD, the same request for day 103 onwards is sent twice and
    every day from 103 to 110 gets two prices. *)
Lemma update_prices_rerun_duplicates :
  let w1 := (update_prices Fixtures.USD None Fixtures.world0).2 in
  let w2 := (update_prices Fixtures.USD None w1).2 in
  honours_start Fixtures.world0 /\
  w_requests w2 = [QuandlFx "USD" "EUR" 103; QuandlFx "USD" "EUR" 103] /\
  date_of ∘ p_date <$> w_created w2
  = [103; 104; 105; 106; 107; 108; 109; 110;
     103; 104; 105; 106; 107; 108; 109; 110] /\
  ~ rerun_adds_no_duplicates.
Proof.
  intros w1 w2. split_and!;
    [apply world0_honours_start|reflexivity|reflexivity|].
  intros H.
  pose (p := mkPrice "guid-USD" "guid-EUR" (103 * 86400) "user:price" "unknown"
                     (11 # 10)).
  pose (ps := (fun d => mkPrice "guid-USD" "guid-EUR" (d * 86400) "user:price"
                                "unknown" (11 # 10)) <$> seqZ 103 8).
  apply (H Fixtures.USD None Fixtures.world0 ps [QuandlFx "USD" "EUR" 103]
           ps [QuandlFx "USD" "EUR" 103] world0_honours_start
           eq_refl eq_refl p p); [by left|by left|reflexivity].
Qed.

(** C7, amended: [update_prices] only creates [Price] objects and leaves
    the stored rows as they are; when the commodity has a stored price, the
    start date sent to the provider is the later of the requested start and
    the day after the most recent stored price, and one price is created per
    quote received; with providers that return nothing dated before the
    start they are asked for, every price a run creates is dated after every
    stored price of the commodity, so that a second run of the same fetch,
    made once the prices of the first run are stored, creates no price for a
    day the store or the first run already covers. *)
Theorem update_prices_after_stored self start w b last :
  book_of w self = Some b ->
  last ∈ w_prices w -> commodity_guid last = guid self ->
  (forall p, p ∈ w_prices w -> commodity_guid p = guid self ->
     p_date p <= p_date last) ->
  let start' := Z.max (date_of (p_date last) + 1)
                      (match start with Some d => d | None => w_today w + -7 end) in
  exists added rs,
    (update_prices self start w).2 = extend w added rs /\
    (forall p, p ∈ added -> commodity_guid p = guid self) /\
    (namespace self = "CURRENCY" -> same (default_currency b) self = false ->
     rs = [QuandlFx (mnemonic self) (mnemonic (default_currency b)) start'] /\
     forall qs,
       quandl_fx w (mnemonic self) (mnemonic (default_currency b)) start' = Ok qs ->
       added = (fun q => mkPrice (guid self) (guid (default_currency b))
                                 (q.1 * 86400) "user:price" "unknown" q.2) <$> qs) /\
    (forall cn cur, namespace self <> "CURRENCY" ->
     yahoo_share w (mnemonic self) = Ok cn -> currencies b cn = Ok cur ->
     rs = [YahooShare (mnemonic self);
           YahooHistorical (mnemonic self) start' (w_today w)] /\
     forall qs,
       yahoo_historical w (mnemonic self) start' (w_today w) = Ok qs ->
       added = (fun q => mkPrice (guid self) (guid cur) (q.1 * 86400)
                                 "user:price" "last" q.2) <$> qs) /\
    (honours_start w ->
     (forall p, p ∈ added -> date_of (p_date last) < date_of (p_date p)) /\
     exists added2 rs2,
       (update_prices self start (store_created (extend w added rs))).2
       = extend (store_created (extend w added rs)) added2 rs2 /\
       forall p p0, p ∈ added2 -> p0 ∈ prices_of w self \/ p0 ∈ added ->
         date_of (p_date p0) < date_of (p_date p)).
Proof.
  intros Hb Hin Hself Hmax start'.
  assert (Hlast : last ∈ prices_of w self).
  { unfold prices_of. by apply list_elem_of_filter. }
  assert (Hmax' : forall p, p ∈ prices_of w self -> p_date p <= p_date last).
  { intros p [? ?]%list_elem_of_filter. by apply Hmax. }
  assert (Hes : effective_start w self start = start')
    by (by apply effective_start_last).
  destruct (update_prices_appends self start w) as (added & rs & E1 & Hc1 & _ & Hd1).
  exists added, rs. split; [done|]. split; [done|].
  pose proof (update_prices_attached self start w b Hb) as Hrun.
  cbv zeta in Hrun. rewrite Hes in Hrun.
  assert (Hinj : forall ps rs', (update_prices self start w).2 = extend w ps rs' ->
                   added = ps /\ rs = rs').
  { intros ps rs' E. rewrite E1 in E. unfold extend in E.
    injection E as E2 E3. apply app_inv_head in E2, E3. done. }
  split_and!.
  - intros Hns Hsame. rewrite decide_True in Hrun by done. rewrite Hsame in Hrun.
    destruct (quandl_fx w _ _ _) as [qs|e] eqn:Hq.
    + destruct (Hinj _ _ (f_equal snd Hrun)) as [-> ->]. split; [done|].
      by intros ? [= <-].
    + destruct (Hinj _ _ (f_equal snd Hrun)) as [-> ->]. by split.
  - intros cn cur Hns Hs Hc. rewrite decide_False in Hrun by done.
    rewrite Hs, Hc in Hrun.
    destruct (yahoo_historical w _ _ _) as [qs|e] eqn:Hq.
    + destruct (Hinj _ _ (f_equal snd Hrun)) as [-> ->]. split; [done|].
      by intros ? [= <-].
    + destruct (Hinj _ _ (f_equal snd Hrun)) as [-> ->]. by split.
  - intros Hh. split; [intros p Hp; by apply (Hd1 Hh p last)|].
    set (w1 := store_created (extend w added rs)).
    destruct (update_prices_appends self start w1) as (a2 & rs2 & E2 & _ & _ & Hd2).
    exists a2, rs2. split; [done|]. intros p p0 Hp Hp0.
    apply (Hd2 (honours_start_store_created _ (honours_start_extend _ _ _ Hh)) p p0 Hp).
    subst w1. rewrite prices_of_store_created.
    apply elem_of_app. destruct Hp0 as [Hp0|Hp0]; [by left|right].
    apply list_elem_of_filter. split; [by apply Hc1|].
    unfold extend. simpl. apply elem_of_app. by right.
Qed.

Lemma update_prices_after_stored_witness :
  let w1 := (update_prices Fixtures.USD None Fixtures.world0).2 in
  exists added rs,
    w1 = extend Fixtures.world0 added rs /\
    rs = [QuandlFx "USD" "EUR" 103] /\
    date_of ∘ p_date <$> added = [103; 104; 105; 106; 107; 108; 109; 110] /\
    exists added2 rs2,
      (update_prices Fixtures.USD None
         (store_created (extend Fixtures.world0 added rs))).2
      = extend (store_created (extend Fixtures.world0 added rs)) added2 rs2 /\
      forall p, p ∈ added2 -> 110 < date_of (p_date p).
Proof.
  intros w1.
  destruct (update_prices_after_stored Fixtures.USD None Fixtures.world0
              Fixtures.book0 Fixtures.usd_price eq_refl)
    as (added & rs & E1 & _ & Hcur & _ & Hrerun).
  - by left.
  - reflexivity.
  - intros p ->%list_elem_of_singleton _. simpl. lia.
  - destruct (Hcur eq_refl eq_refl) as [Hrs Hadded].
    destruct (Hrerun world0_honours_start) as (_ & a2 & rs2 & E2 & Hd2).
    exists added, rs. split; [exact E1|]. split; [exact Hrs|].
    split; [rewrite (Hadded _ eq_refl); reflexivity|].
    exists a2, rs2. split; [exact E2|].
    intros p Hp.
    apply (Hd2 p (mkPrice "guid-USD" "guid-EUR" (110 * 86400) "user:price"
                          "unknown" (11 # 10)) Hp).
    right. rewrite (Hadded _ eq_refl).
    apply list_elem_of_fmap. exists (110, 11 # 10). split; [reflexivity|].
    apply list_elem_of_fmap. exists 110. split; [reflexivity|].
    apply elem_of_seqZ. change (103 <= 110 < 103 + (111 - 103)). lia.
Defined.

(** C10: [update_prices] raises [GncPriceError] before it asks a provider
    anything in exactly two cases: the commodity is not attached to a book,
    or it is a currency and the book's default currency; in both the state
    is left as it was, so no [Price] row is created. *)
Theorem update_prices_precondition_failures self start w :
  (book_of w self = None ->
   update_prices self start w =
     (Raise (GncPriceError
        "Cannot update price for a commodity not attached to a book"), w)) /\
  (forall b, book_of w self = Some b -> namespace self = "CURRENCY" ->
   same (default_currency b) self = true ->
   update_prices self start w =
     (Raise (GncPriceError "Cannot update exchange rate for base currency"), w)) /\
  (((exists msg, (update_prices self start w).1 = Raise (GncPriceError msg)) /\
    w_requests (update_prices self start w).2 = w_requests w)
   <-> prefetch_failure w self).
Proof.
  split_and!.
  - intros Hb. unfold update_prices, m_bind, m_get. by rewrite Hb.
  - intros b Hb Hns Hsame. unfold update_prices, m_bind, m_get. rewrite Hb.
    rewrite decide_True by done. unfold base_currency. rewrite Hb.
    rewrite decide_True by done. unfold m_lift. by rewrite Hsame.
  - destruct (update_prices_shape self start w)
      as (res & ps & rs & Heq & _ & _ & Hnil & Hpre).
    rewrite Heq. simpl. split.
    + intros [_ Hrq]. apply Hnil.
      apply (f_equal length) in Hrq. rewrite length_app in Hrq.
      destruct rs; [done|simpl in Hrq; lia].
    + intros Hpf. destruct (Hpre Hpf) as [_ Hres]. split; [done|].
      apply Hnil in Hpf. subst rs. by rewrite app_nil_r.
Qed.

Lemma update_prices_precondition_failures_witness :
  update_prices Fixtures.GBP None Fixtures.world0 =
    (Raise (GncPriceError
       "Cannot update price for a commodity not attached to a book"),
     Fixtures.world0) /\
  update_prices Fixtures.EUR None Fixtures.world0 =
    (Raise (GncPriceError "Cannot update exchange rate for base currency"),
     Fixtures.world0) /\
  ~ prefetch_failure Fixtures.world0 Fixtures.USD.
Proof.
  split_and!.
  - apply (update_prices_precondition_failures Fixtures.GBP None Fixtures.world0).
    reflexivity.
  - apply (proj1 (proj2 (update_prices_precondition_failures
                           Fixtures.EUR None Fixtures.world0)) Fixtures.book0);
      reflexivity.
  - intros Hpf.
    apply (update_prices_precondition_failures Fixtures.USD None Fixtures.world0)
      in Hpf as [_ Hrq].
    discriminate Hrq.
Defined.

(** ** base_currency *)

(** C9, as stated: a 'quoted_currency' slot that holds the empty string is
    not followed, although the book has a currency of that name. *)
Lemma base_currency_ignores_empty_slot :
  book_of Fixtures.world0 Fixtures.ACME_in_blank = Some Fixtures.book0 /\
  slots Fixtures.ACME_in_blank !! "quoted_currency" = Some EmptyString /\
  currencies Fixtures.book0 EmptyString = Ok Fixtures.blank /\
  base_currency Fixtures.world0 Fixtures.ACME_in_blank =
    Raise (GnucashException (no_base_currency_msg "ACME")) /\
  ~ base_currency_follows_slot.
Proof.
  split_and!; [reflexivity|reflexivity|reflexivity|reflexivity|].
  intros H.
  specialize (H Fixtures.world0 Fixtures.ACME_in_blank Fixtures.book0 EmptyString
                eq_refl).
  assert (Hns : namespace Fixtures.ACME_in_blank <> "CURRENCY") by discriminate.
  specialize (H Hns eq_refl). discriminate H.
Qed.

(** C9, amended: [base_currency] raises when the commodity is not linked to
    a book; linked, it returns the book's default currency for a currency,
    and for any other commodity the currency the book finds under the
    mnemonic held by a non-empty 'quoted_currency' slot; it raises when
    that commodity has no such slot, or an empty one. *)
Theorem base_currency_cases w self :
  (book_of w self = None ->
   base_currency w self =
     Raise (GnucashException
       "The commodity should be linked to a session to have a 'base_currency'")) /\
  (forall b, book_of w self = Some b -> namespace self = "CURRENCY" ->
     base_currency w self = Ok (default_currency b)) /\
  (forall b m, book_of w self = Some b -> namespace self <> "CURRENCY" ->
     slots self !! "quoted_currency" = Some m -> m <> EmptyString ->
     base_currency w self = currencies b m) /\
  (forall b, book_of w self = Some b -> namespace self <> "CURRENCY" ->
     slots self !! "quoted_currency" = None \/
     slots self !! "quoted_currency" = Some EmptyString ->
     base_currency w self =
       Raise (GnucashException (no_base_currency_msg (mnemonic self)))).
Proof.
  unfold base_currency. split_and!.
  - by intros ->.
  - intros b -> Hns. by rewrite decide_True.
  - intros b m -> Hns Hm Hne. rewrite decide_False by done. rewrite Hm. simpl.
    by rewrite decide_False.
  - intros b -> Hns [Hm|Hm]; rewrite decide_False by done; by rewrite Hm.
Qed.

Lemma base_currency_cases_witness :
  raises (base_currency Fixtures.world0 Fixtures.GBP) /\
  base_currency Fixtures.world0 Fixtures.USD = Ok Fixtures.EUR /\
  base_currency Fixtures.world0 Fixtures.ACME_in_EUR = Ok Fixtures.EUR /\
  raises (base_currency Fixtures.world0 Fixtures.ACME) /\
  raises (base_currency Fixtures.world0 Fixtures.ACME_in_blank).
Proof.
  split_and!.
  - rewrite (proj1 (base_currency_cases Fixtures.world0 Fixtures.GBP)); [exact I|].
    reflexivity.
  - apply (proj1 (proj2 (base_currency_cases Fixtures.world0 Fixtures.USD))
             Fixtures.book0); reflexivity.
  - rewrite (proj1 (proj2 (proj2 (base_currency_cases Fixtures.world0
                                    Fixtures.ACME_in_EUR)))
               Fixtures.book0 "EUR"); [reflexivity|reflexivity|discriminate|
                                       reflexivity|discriminate].
  - rewrite (proj2 (proj2 (proj2 (base_currency_cases Fixtures.world0
                                    Fixtures.ACME)))
               Fixtures.book0); [exact I|reflexivity|discriminate|by left].
  - rewrite (proj2 (proj2 (proj2 (base_currency_cases Fixtures.world0
                                    Fixtures.ACME_in_blank)))
               Fixtures.book0); [exact I|reflexivity|discriminate|by right].
Defined.

End CommodityProps.

(** ** Transaction validation *)

Module TransactionProps.
Import Transaction Fixtures.

Lemma same_refl c : Commodity.same c c = true.
Proof. unfold Commodity.same. by rewrite bool_decide_eq_true. Qed.

Lemma same_sym a b : Commodity.same a b = Commodity.same b a.
Proof. unfold Commodity.same. apply bool_decide_ext. split; congruence. Qed.



Lemma check_split_ok cur sp sp' :
  check_split cur sp = Ok sp' ->
  s_account sp' = s_account sp /\ s_value sp' = s_value sp /\
  s_memo sp' = s_memo sp /\
  (s_quantity sp = None \/ s_quantity sp' = s_quantity sp) /\
  consistent cur sp'.
Proof.
  unfold check_split, consistent.
  destruct (in_currency cur sp) eqn:Hin, (s_quantity sp) as [q|] eqn:Hq;
    repeat case_decide; intros Hok; simplify_eq; simpl.
  all: try (rewrite Hin; split_and!; by eauto).
  change (in_currency cur (set_quantity sp (s_value sp))) with (in_currency cur sp).
  rewrite Hin. split_and!; by eauto.
Qed.

Lemma check_splits_ok cur l l' :
  check_splits cur l = Ok l' ->
  Forall2 (fun sp sp' => check_split cur sp = Ok sp') l l'.
Proof.
  revert l'. induction l as [|sp l IH]; intros l' H; simpl in H.
  - simplify_eq. constructor.
  - destruct (check_split cur sp) as [sp'|] eqn:E; [|done]. simpl in H.
    destruct (check_splits cur l) as [l''|] eqn:E'; [|done]. simpl in H.
    simplify_eq. constructor; auto.
Qed.

Lemma check_splits_raise cur l sp e :
  sp ∈ l -> check_split cur sp = Raise e -> raises (check_splits cur l).
Proof.
  intros Hin Hsp. induction l as [|x l IH]; [by apply elem_of_nil in Hin|].
  simpl. apply elem_of_cons in Hin as [->|Hin].
  - by rewrite Hsp.
  - destruct (check_split cur x); [|done]. simpl.
    specialize (IH Hin). destruct (check_splits cur l); done.
Qed.

Lemma check_splits_value_sum cur l l' :
  check_splits cur l = Ok l' -> value_sum l' = value_sum l.
Proof.
  intros H%check_splits_ok. induction H as [|sp sp' l l' Hs _ IH]; [done|].
  simpl. apply check_split_ok in Hs as (_ & -> & _). lia.
Qed.

Lemma validate_currency_first use tx :
  Commodity.namespace (t_currency tx) <> "CURRENCY" ->
  validate use tx = Raise InvalidTransactionCurrency.
Proof. intros H. unfold validate, check_currency. by rewrite decide_False. Qed.


Lemma value_sum_app l1 l2 : value_sum (l1 ++ l2) = value_sum l1 + value_sum l2.
Proof. induction l1 as [|sp l1 IH]; simpl; lia. Qed.










Lemma same_guid a b : Commodity.same a b = true <-> Commodity.guid a = Commodity.guid b.
Proof. unfold Commodity.same. apply bool_decide_eq_true. Qed.

Lemma same_not_guid a b : Commodity.same a b = false <-> Commodity.guid a <> Commodity.guid b.
Proof. unfold Commodity.same. apply bool_decide_eq_false. Qed.


Lemma value_sum_cons sp l : value_sum (sp :: l) = s_value sp + value_sum l.
Proof. reflexivity. Qed.

Lemma commodity_value_sum_cons c sp l :
  commodity_value_sum c (sp :: l) =
  if Commodity.same (split_commodity sp) c
  then s_value sp + commodity_value_sum c l else commodity_value_sum c l.
Proof. reflexivity. Qed.


Lemma omap_cons_match {A B} (f : A -> option B) x (l : list A) :
  omap f (x :: l) = match f x with Some y => y :: omap f l | None => omap f l end.
Proof. reflexivity. Qed.

Lemma split_commodities_sound seen l c :
  c ∈ split_commodities seen l ->
  (Commodity.guid c ∉ seen) /\ exists sp, sp ∈ l /\ split_commodity sp = c.
Proof.
  revert seen. induction l as [|sp l IH]; intros seen; simpl.
  - intros H. by apply elem_of_nil in H.
  - case_bool_decide as Hseen.
    { intros (H2 & sp' & H3 & H4)%IH. split; [done|].
      exists sp'. split; [by right|done]. }
    intros [->|H]%elem_of_cons.
    + split; [done|]. exists sp. split; [by left|done].
    + apply IH in H as (H2 & sp' & H3 & H4). split.
      * intros Hc. apply H2. by right.
      * exists sp'. split; [by right|done].
Qed.

Lemma split_commodities_complete seen l sp :
  sp ∈ l -> Commodity.guid (split_commodity sp) ∉ seen ->
  Commodity.guid (split_commodity sp) ∈
    Commodity.guid <$> split_commodities seen l.
Proof.
  revert seen. induction l as [|x l IH]; intros seen Hin Hseen.
  - by apply elem_of_nil in Hin.
  - simpl. apply elem_of_cons in Hin as [<-|Hin].
    + rewrite bool_decide_eq_false_2 by done. simpl. by left.
    + case_bool_decide as Hxs; [by apply IH|].
      simpl.
      destruct (decide (Commodity.guid (split_commodity sp)
                        = Commodity.guid (split_commodity x))) as [->|Hne].
      * by left.
      * right. apply IH; auto. intros [?|?]%elem_of_cons; done.
Qed.

Lemma split_commodities_nodup seen l :
  NoDup (Commodity.guid <$> split_commodities seen l).
Proof.
  revert seen. induction l as [|x l IH]; intros seen; simpl; [constructor|].
  case_bool_decide as Hxs; [apply IH|].
  simpl. constructor; [|apply IH].
  intros (c & Hc & Hin)%list_elem_of_fmap.
  apply split_commodities_sound in Hin as (Hn & _). apply Hn. rewrite Hc. by left.
Qed.

(** The values of the splits, commodity by commodity, add up to their
    sum. *)
Lemma commodity_value_sum_step sp l cs :
  NoDup (Commodity.guid <$> cs) ->
  foldr (fun c acc => commodity_value_sum c (sp :: l) + acc) 0 cs =
  (if bool_decide (Commodity.guid (split_commodity sp) ∈ Commodity.guid <$> cs)
   then s_value sp else 0)
  + foldr (fun c acc => commodity_value_sum c l + acc) 0 cs.
Proof.
  induction cs as [|c cs IH]; intros Hnd; [done|].
  rewrite fmap_cons in Hnd |- *.
  apply NoDup_cons in Hnd as [Hnotin Hnd]. specialize (IH Hnd).
  cbn [foldr]. rewrite IH, commodity_value_sum_cons.
  destruct (decide (Commodity.guid (split_commodity sp) = Commodity.guid c))
    as [Heq|Hne].
  - rewrite (proj2 (same_guid _ _) Heq).
    rewrite (bool_decide_eq_true_2 (_ ∈ _ :: _)); [|rewrite Heq; by left].
    rewrite bool_decide_eq_false_2; [lia|]. by rewrite Heq.
  - rewrite (proj2 (same_not_guid _ _) Hne).
    assert (Hb : bool_decide (Commodity.guid (split_commodity sp)
                              ∈ Commodity.guid c :: (Commodity.guid <$> cs))
                 = bool_decide (Commodity.guid (split_commodity sp)
                                ∈ Commodity.guid <$> cs)).
    { apply bool_decide_ext. rewrite elem_of_cons.
      split; [intros [?|?]; [congruence|done]|by right]. }
    rewrite Hb. lia.
Qed.

Lemma commodity_value_sum_total l cs :
  NoDup (Commodity.guid <$> cs) ->
  (forall sp, sp ∈ l ->
     Commodity.guid (split_commodity sp) ∈ Commodity.guid <$> cs) ->
  foldr (fun c acc => commodity_value_sum c l + acc) 0 cs = value_sum l.
Proof.
  intros Hnd. induction l as [|sp l IH]; intros Hcov.
  - clear. induction cs as [|c cs IH]; [done|]. cbn [foldr]. by rewrite IH.
  - rewrite commodity_value_sum_step by done.
    rewrite bool_decide_eq_true_2 by (apply Hcov; by left).
    rewrite IH; [done|]. intros sp' Hsp'. apply Hcov. by right.
Qed.

(** The splits created carry, commodity by commodity, the opposite of the
    value and of the quantity of the splits they are computed from. *)
Lemma trading_value_sum cs l :
  value_sum
    (omap (fun c =>
             if decide (commodity_value_sum c l = 0 /\ quantity_sum c l = 0)
             then None
             else Some (mkSplit (trading_account c) (- commodity_value_sum c l)
                                (Some (- quantity_sum c l)) EmptyString))
          cs)
  = - foldr (fun c acc => commodity_value_sum c l + acc) 0 cs.
Proof.
  induction cs as [|c cs IH]; [done|].
  rewrite omap_cons_match. cbn [foldr].
  destruct (decide (commodity_value_sum c l = 0 /\ quantity_sum c l = 0))
    as [[Hv _]|_].
  - rewrite IH. lia.
  - rewrite value_sum_cons, IH. cbn [s_value]. lia.
Qed.


(** The correction leaves the values balanced and nets the quantities of
    every commodity. *)
Lemma trading_splits_value l : value_sum (trading_splits l) = - value_sum l.
Proof.
  unfold trading_splits. rewrite trading_value_sum.
  rewrite commodity_value_sum_total; [done|apply split_commodities_nodup|].
  intros sp Hsp. apply split_commodities_complete; [done|apply not_elem_of_nil].
Qed.



Lemma check_value_balance_ok l : value_sum l = 0 -> check_value_balance l = Ok tt.
Proof. intros H. unfold check_value_balance. by rewrite decide_True. Qed.

Lemma check_value_balance_raise l :
  value_sum l <> 0 -> check_value_balance l = Raise (ImbalancedTransaction (value_sum l)).
Proof. intros H. unfold check_value_balance. by rewrite decide_False. Qed.




(** The outcomes of [validate], step by step. *)
Lemma validate_ok_inv use tx tx' :
  validate use tx = Ok tx' ->
  check_currency tx = Ok tt /\
  exists l extra,
    check_splits (t_currency tx) (t_splits tx) = Ok l /\
    value_sum l = 0 /\
    t_splits tx' = l ++ extra /\
    value_sum (l ++ extra) = 0 /\
    (use = false -> extra = []) /\
    (use = true -> extra = trading_splits l).
Proof.
  unfold validate. destruct (check_currency tx) as [[]|]; [|done]. simpl.
  destruct (check_splits (t_currency tx) (t_splits tx)) as [l|] eqn:Hl; [|done]. simpl.
  destruct (decide (value_sum l = 0)) as [Hv|Hv];
    [rewrite (check_value_balance_ok l Hv)
    |by rewrite (check_value_balance_raise l Hv)].
  simpl. destruct use.
  - destruct (decide (value_sum (l ++ trading_splits l) = 0)) as [Hv'|Hv'];
      [rewrite (check_value_balance_ok _ Hv')
      |by rewrite (check_value_balance_raise _ Hv')].
    simpl.
    destruct (check_quantity_balance _ _) as [[]|] eqn:Hq; [|done]. simpl.
    intros ?; simplify_eq. split; [done|].
    exists l, (trading_splits l). split_and!; auto. done.
  - intros ?; simplify_eq. split; [done|]. exists l, []. rewrite app_nil_r.
    split_and!; auto. done.
Qed.

Lemma validate_raise_currency use tx e :
  check_currency tx = Raise e -> validate use tx = Raise e.
Proof. intros H. unfold validate. by rewrite H. Qed.

Lemma validate_raise_check_splits use tx e :
  check_currency tx = Ok tt ->
  check_splits (t_currency tx) (t_splits tx) = Raise e ->
  validate use tx = Raise e.
Proof. intros H1 H2. unfold validate. rewrite H1. simpl. by rewrite H2. Qed.

Lemma validate_raise_splits use tx sp e :
  sp ∈ t_splits tx -> check_split (t_currency tx) sp = Raise e ->
  raises (validate use tx).
Proof.
  intros Hin He. unfold validate. destruct (check_currency tx); [|done]. simpl.
  pose proof (check_splits_raise _ _ _ _ Hin He) as Hr.
  destruct (check_splits _ _); done.
Qed.


Example basic_imbalanced :
  validate false tr_basic_imbalanced = Raise (ImbalancedTransaction 90).
Proof. reflexivity. Qed.

Example basic_balanced : succeeds (validate false tr_basic).
Proof. exact I. Qed.

Example cdty_missing_quantity :
  validate false (tr_cdty None []) = Raise (QuantityValueMismatch None (-90)).
Proof. reflexivity. Qed.

Example cdty_wrong_sign :
  validate false (tr_cdty (Some 15) []) = Raise (QuantitySignMismatch 15 (-90)).
Proof. reflexivity. Qed.

Example cdty_imbalanced :
  validate false (tr_cdty (Some (-15)) []) = Raise (ImbalancedTransaction 10).
Proof. reflexivity. Qed.

Example cdty_balanced :
  validate false
    (tr_cdty (Some (-15)) [mkSplit asset (-10) None "missing asset corr"])
  = Ok (mkTransaction "tr-cdty" EUR "buy stock"
          [mkSplit asset 100 (Some 100) "asset";
           mkSplit broker (-90) (Some (-15)) "brok";
           mkSplit asset (-10) (Some (-10)) "missing asset corr"] None).
Proof. reflexivity. Qed.

Example cdty_currency_changed :
  validate false tr_cdty_in_USD = Raise CurrencyChanged /\
  validate true tr_cdty_in_USD = Raise CurrencyChanged.
Proof. split; reflexivity. Qed.

Example trading_first_flush :
  validate true tr_trading
  = Ok (mkTransaction "tr-trading" EUR "buy stock"
          [mkSplit asset 100 (Some 100) "asset";
           mkSplit broker (-100) (Some (-15)) "brok";
           mkSplit (trading_account EUR) (-100) (Some (-100)) EmptyString;
           mkSplit (trading_account ACME) 100 (Some 15) EmptyString] None).
Proof. reflexivity. Qed.

Example trading_second_flush :
  validate true tr_trading_changed
  = Ok (set_splits tr_trading_changed
          (t_splits tr_trading_changed
           ++ [mkSplit (trading_account ACME) 0 (Some (-1)) EmptyString])).
Proof. reflexivity. Qed.

(** C1, as stated: at the first flush of test_create_cdtytransaction the
    values sum to 10, and the error is the missing quantity, not the
    imbalance; a transaction in a commodity that is no currency whose
    values sum to 100 is refused for its currency. *)
Lemma imbalance_not_always_reported :
  value_sum (t_splits (tr_cdty None [])) = 10 /\
  validate false (tr_cdty None []) = Raise (QuantityValueMismatch None (-90)) /\
  value_sum (t_splits (set_splits tr_cdtycurrency
                         [mkSplit asset 100 (Some 10) "asset"])) = 100 /\
  validate false (set_splits tr_cdtycurrency [mkSplit asset 100 (Some 10) "asset"])
  = Raise InvalidTransactionCurrency /\
  ~ imbalance_always_reported.
Proof.
  split_and!; [reflexivity|reflexivity|reflexivity|reflexivity|].
  intros H. specialize (H false (tr_cdty None [])).
  assert (Hne : value_sum (t_splits (tr_cdty None [])) <> 0) by (by vm_compute).
  specialize (H Hne). vm_compute in H. discriminate H.
Qed.

(** C1, amended: validation succeeds only if the values of the splits sum
    to exactly zero; a nonzero sum makes it raise; the steps run in order,
    so that a violated currency check, or else a violated per-split check,
    raises its own error whatever the sum is, and the error is the
    imbalance error carrying the sum exactly when both pass and the sum is
    not zero; a list of splits whose values sum to zero passes the
    value-balance step. *)
Theorem validate_value_balance use tx :
  (forall tx', validate use tx = Ok tx' ->
     value_sum (t_splits tx) = 0 /\ value_sum (t_splits tx') = 0) /\
  (value_sum (t_splits tx) <> 0 -> raises (validate use tx)) /\
  (forall e, check_currency tx = Raise e -> validate use tx = Raise e) /\
  (forall e, check_currency tx = Ok tt ->
     check_splits (t_currency tx) (t_splits tx) = Raise e ->
     validate use tx = Raise e) /\
  (forall l, check_currency tx = Ok tt ->
     check_splits (t_currency tx) (t_splits tx) = Ok l ->
     value_sum (t_splits tx) <> 0 ->
     validate use tx = Raise (ImbalancedTransaction (value_sum (t_splits tx)))) /\
  (forall r, validate use tx = Raise (ImbalancedTransaction r) ->
     r = value_sum (t_splits tx) /\ r <> 0 /\ check_currency tx = Ok tt /\
     succeeds (check_splits (t_currency tx) (t_splits tx))) /\
  (value_sum (t_splits tx) = 0 -> check_value_balance (t_splits tx) = Ok tt).
Proof.
  assert (Hok : forall tx', validate use tx = Ok tx' ->
            value_sum (t_splits tx) = 0 /\ value_sum (t_splits tx') = 0).
  { intros tx' (_ & l & extra & Hl & Hv & -> & Hv' & _)%validate_ok_inv.
    by rewrite <- (check_splits_value_sum _ _ _ Hl). }
  split_and!; [done| | | | | |apply check_value_balance_ok].
  - intros Hne. destruct (validate use tx) as [tx'|] eqn:E; [|done].
    by destruct (Hok tx' eq_refl).
  - apply validate_raise_currency.
  - apply validate_raise_check_splits.
  - intros l Hcur Hl Hne. unfold validate. rewrite Hcur. simpl. rewrite Hl. simpl.
    rewrite <- (check_splits_value_sum _ _ _ Hl) in Hne |- *.
    by rewrite (check_value_balance_raise l Hne).
  - intros r. unfold validate.
    destruct (check_currency tx) as [[]|e] eqn:Hcur.
    2:{ simpl. intros [= ->]. unfold check_currency in Hcur.
        case_decide; [|done]. destruct (t_old_currency tx); [|done].
        by destruct (Commodity.same _ _). }
    simpl.
    destruct (check_splits (t_currency tx) (t_splits tx)) as [l|e] eqn:Hl.
    2:{ simpl. intros [= ->]. exfalso. clear -Hl.
        revert Hl. generalize (t_splits tx). intros l.
        induction l as [|sp l IH]; simpl; [done|].
        destruct (check_split (t_currency tx) sp) as [sp'|e] eqn:Hsp; simpl.
        - destruct (check_splits (t_currency tx) l); simpl; [done|]. exact IH.
        - intros [= ->]. unfold check_split in Hsp.
          destruct (in_currency _ _), (s_quantity sp);
            repeat case_decide; done. }
    simpl. rewrite <- (check_splits_value_sum _ _ _ Hl).
    destruct (decide (value_sum l = 0)) as [Hv|Hv].
    + rewrite (check_value_balance_ok l Hv). simpl. destruct use; [|done].
      rewrite check_value_balance_ok
        by (rewrite value_sum_app, trading_splits_value; lia).
      simpl.
      destruct (check_quantity_balance _ _) as [[]|e] eqn:Hq; [done|].
      simpl. intros [= ->]. exfalso. clear -Hq.
      unfold check_quantity_balance in Hq. revert Hq.
      generalize (foreign_commodities (t_currency tx) [] (l ++ trading_splits l)).
      intros cs. induction cs as [|c cs IH]; simpl; [done|].
      case_decide; [exact IH|done].
    + rewrite (check_value_balance_raise l Hv). simpl. intros [= <-]. done.
Qed.

Lemma validate_value_balance_witness :
  validate false tr_basic_imbalanced = Raise (ImbalancedTransaction 90) /\
  validate false (tr_cdty None []) = Raise (QuantityValueMismatch None (-90)) /\
  validate false tr_cdtycurrency = Raise InvalidTransactionCurrency /\
  check_value_balance (t_splits tr_basic) = Ok tt.
Proof.
  destruct (validate_value_balance false tr_basic_imbalanced)
    as (_ & _ & _ & _ & H5 & _).
  destruct (validate_value_balance false (tr_cdty None []))
    as (_ & _ & _ & H4 & _).
  destruct (validate_value_balance false tr_cdtycurrency) as (_ & _ & H3 & _).
  destruct (validate_value_balance false tr_basic) as (_ & _ & _ & _ & _ & _ & H7).
  split_and!.
  - apply (H5 [mkSplit asset 100 (Some 100) "asset"; mkSplit exp (-10) (Some (-10)) "exp"]).
    + reflexivity.
    + reflexivity.
    + vm_compute. discriminate.
  - apply H4; reflexivity.
  - apply H3. reflexivity.
  - apply H7. reflexivity.
Defined.

(** C4: a transaction whose currency has a namespace other than CURRENCY is
    rejected with the invalid-currency error, whatever its splits are and
    whether trading accounts are used: the check runs before any other. *)
Theorem validate_rejects_non_currency use tx :
  Commodity.namespace (t_currency tx) <> "CURRENCY" ->
  validate use tx = Raise InvalidTransactionCurrency.
Proof. apply validate_currency_first. Qed.

Lemma validate_rejects_non_currency_witness :
  value_sum (t_splits tr_cdtycurrency) = 0 /\
  validate false tr_cdtycurrency = Raise InvalidTransactionCurrency.
Proof.
  split; [reflexivity|].
  apply (validate_rejects_non_currency false tr_cdtycurrency).
  vm_compute. discriminate.
Defined.


Lemma check_split_validated cur sp sp' :
  check_split cur sp = Ok sp' -> validated_as cur sp sp'.
Proof.
  unfold check_split, validated_as.
  destruct (in_currency cur sp) eqn:Hin, (s_quantity sp) as [q|] eqn:Hq;
    repeat case_decide; intros Hok; simplify_eq; simpl;
    split_and!; eauto.
Qed.

(** C2: when validation succeeds every split of the transaction comes out
    with its account and value unchanged and, on an account in the
    transaction currency, with quantity equal to value (set when it was
    absent), otherwise with the quantity it had, of the sign of the value
    unless the value is zero; a split in the transaction currency with a
    different quantity, a split in another commodity without quantity, and
    one whose quantity and nonzero value differ in sign each make
    validation raise. *)
Theorem validate_quantity_consistency use tx :
  let cur := t_currency tx in
  (forall tx', validate use tx = Ok tx' ->
     exists l extra, t_splits tx' = l ++ extra /\
                     Forall2 (validated_as cur) (t_splits tx) l) /\
  (forall sp, sp ∈ t_splits tx ->
     match in_currency cur sp, s_quantity sp with
     | true, None => check_split cur sp = Ok (set_quantity sp (s_value sp))
     | true, Some q =>
         q <> s_value sp ->
         check_split cur sp = Raise (QuantityValueMismatch (Some q) (s_value sp)) /\
         raises (validate use tx)
     | false, None =>
         check_split cur sp = Raise (QuantityValueMismatch None (s_value sp)) /\
         raises (validate use tx)
     | false, Some q =>
         (s_value sp = 0 -> check_split cur sp = Ok sp) /\
         (s_value sp <> 0 -> Z.sgn q <> Z.sgn (s_value sp) ->
          check_split cur sp = Raise (QuantitySignMismatch q (s_value sp)) /\
          raises (validate use tx))
     end).
Proof.
  intros cur. split.
  - intros tx' (_ & l & extra & Hl & _ & -> & _)%validate_ok_inv.
    exists l, extra. split; [done|].
    apply check_splits_ok in Hl. fold cur in Hl.
    induction Hl as [|sp sp' l0 l1 Hs _ IH]; constructor; [|done].
    by apply check_split_validated.
  - intros sp Hin.
    destruct (in_currency cur sp) eqn:Hc, (s_quantity sp) as [q|] eqn:Hq.
    + intros Hne.
      assert (He : check_split cur sp = Raise (QuantityValueMismatch (Some q) (s_value sp))).
      { unfold check_split. rewrite Hc, Hq. by rewrite decide_False. }
      split; [done|]. by eapply validate_raise_splits.
    + unfold check_split. by rewrite Hc, Hq.
    + split.
      * intros Hz. unfold check_split. rewrite Hc, Hq. by rewrite decide_True.
      * intros Hnz Hsgn.
        assert (He : check_split cur sp = Raise (QuantitySignMismatch q (s_value sp))).
        { unfold check_split. rewrite Hc, Hq. by rewrite !decide_False. }
        split; [done|]. by eapply validate_raise_splits.
    + assert (He : check_split cur sp = Raise (QuantityValueMismatch None (s_value sp))).
      { unfold check_split. by rewrite Hc, Hq. }
      split; [done|]. by eapply validate_raise_splits.
Qed.



Lemma validate_quantity_consistency_witness :
  (exists tx' l extra,
     validate false
       (tr_cdty (Some (-15)) [mkSplit asset (-10) None "missing asset corr"]) = Ok tx' /\
     t_splits tx' = l ++ extra /\
     Forall2 (validated_as EUR)
       (t_splits (tr_cdty (Some (-15)) [mkSplit asset (-10) None "missing asset corr"])) l) /\
  raises (validate false (tr_cdty None [])) /\
  raises (validate false (tr_cdty (Some 15) [])) /\
  raises (validate false
            (mkTransaction "tr" EUR "wire" [mkSplit asset 100 (Some 99) "asset"] None)).
Proof.
  split_and!.
  - eexists.
    destruct (validate_quantity_consistency false
                (tr_cdty (Some (-15)) [mkSplit asset (-10) None "missing asset corr"]))
      as [H _].
    destruct (H _ eq_refl) as (l & extra & H1 & H2).
    exists l, extra. split_and!; [reflexivity|exact H1|exact H2].
  - destruct (validate_quantity_consistency false (tr_cdty None [])) as [_ H].
    specialize (H (mkSplit broker (-90) None "brok")). simpl in H.
    apply H. right. left.
  - destruct (validate_quantity_consistency false (tr_cdty (Some 15) []))
      as [_ H].
    specialize (H (mkSplit broker (-90) (Some 15) "brok")). simpl in H.
    apply H; [right; left|lia|lia].
  - destruct (validate_quantity_consistency false
                (mkTransaction "tr" EUR "wire" [mkSplit asset 100 (Some 99) "asset"]
                               None))
      as [_ H].
    specialize (H (mkSplit asset 100 (Some 99) "asset")). simpl in H.
    apply H; [left|lia].
Defined.


End TransactionProps.

(** ** Sessions *)

Module SessionProps.
Import Session.

Lemma check_versions_ok items :
  check_versions items = Ok tt <-> forall kv, kv ∈ items -> check_version kv = Ok tt.
Proof.
  induction items as [|kv items IH]; simpl.
  - split; [|done]. intros _ kv H. by apply elem_of_nil in H.
  - destruct (check_version kv) as [[]|e] eqn:E; simpl.
    + rewrite IH. split.
      * intros H kv' [->|Hin]%elem_of_cons; auto.
      * intros H kv' Hin. apply H. by right.
    + split; [done|]. intros H. specialize (H kv). rewrite E in H.
      discriminate H. by left.
Qed.

Lemma check_version_checked k v :
  occurs_in k "Gnucash" = false ->
  check_version (k, v) = Ok tt <-> version_supported !! k = Some v.
Proof.
  intros Hk. unfold check_version. rewrite Hk.
  destruct (version_supported !! k) as [supported|]; [|done].
  case_decide; split; intros; simplify_eq; done.
Qed.

(** How [open_book] returns a session. *)
Lemma open_book_ok_inv sqlite_file uri_conn acquire_lock readonly open_if_lock
    do_backup e s e' :
  open_book sqlite_file uri_conn acquire_lock readonly open_if_lock do_backup e
    = (Ok s, e') ->
  exists uri db b,
    resolve_uri sqlite_file uri_conn = Ok uri /\
    databases e !! uri = Some db /\
    check_versions (map_to_list (versions db)) = Ok tt /\
    one (books db) = Ok b /\
    s = adapt_session (new_session uri db) b readonly.
Proof.
  unfold open_book, m_bind. unfold m_lift at 1.
  destruct (resolve_uri sqlite_file uri_conn) as [uri|]; [|done].
  unfold m_get. destruct (databases e !! uri) as [db|] eqn:Hdb; [|done].
  set (bk := if negb readonly && do_backup then _ else _).
  destruct (bk e) as [[[]|] e1] eqn:Hbk; [|done].
  destruct (bool_decide (gnclock db <> []) && negb open_if_lock); [done|].
  unfold m_lift at 1.
  destruct (check_versions (map_to_list (versions db))) as [[]|] eqn:Hv; [|done].
  unfold m_lift. destruct (one (books db)) as [b|] eqn:Hone; [|done].
  unfold m_ret. intros ?; simplify_eq. exists uri, db, b. done.
Qed.

(** C8, as stated: a book whose versions table holds Gnucash = 1, against
    the supported 2060400, opens. *)
Lemma open_book_skips_gnucash_row :
  let e := Fixtures.env_with (<["Gnucash" := 1]> version_supported) in
  let db := Fixtures.db_with (<["Gnucash" := 1]> version_supported) in
  databases e !! Fixtures.uri0 = Some db /\
  versions db !! "Gnucash" = Some 1 /\
  version_supported !! "Gnucash" = Some 2060400 /\
  (open_book (Some "book.gnucash") None true true false true e).1 =
    Ok (adapt_session (new_session Fixtures.uri0 db) Fixtures.book0 true) /\
  ~ every_version_row_checked.
Proof.
  intros e db. split_and!; [reflexivity|reflexivity|reflexivity|reflexivity|].
  intros H.
  specialize (H (Some "book.gnucash") None true true false true e Fixtures.uri0 db
                "Gnucash" 1 eq_refl eq_refl eq_refl).
  assert (Hne : version_supported !! "Gnucash" <> Some 1) by (by vm_compute).
  specialize (H Hne). vm_compute in H. exact H.
Qed.

(** C8, amended: [open_book] compares every row of the versions table whose
    table name does not occur in the string Gnucash with the supported
    version of that table, and a row that differs, or names a table
    without supported version, makes it raise instead of returning a
    book. *)
Theorem open_book_checks_versions sqlite_file uri_conn acquire_lock readonly
    open_if_lock do_backup e :
  let r := open_book sqlite_file uri_conn acquire_lock readonly open_if_lock
             do_backup e in
  (forall s, r.1 = Ok s ->
     exists uri db,
       resolve_uri sqlite_file uri_conn = Ok uri /\
       databases e !! uri = Some db /\
       forall k v, versions db !! k = Some v -> occurs_in k "Gnucash" = false ->
                   version_supported !! k = Some v) /\
  (forall uri db k v,
     resolve_uri sqlite_file uri_conn = Ok uri ->
     databases e !! uri = Some db ->
     versions db !! k = Some v -> occurs_in k "Gnucash" = false ->
     version_supported !! k <> Some v ->
     raises r.1).
Proof.
  intros r.
  assert (Hok : forall s, r.1 = Ok s ->
     exists uri db,
       resolve_uri sqlite_file uri_conn = Ok uri /\
       databases e !! uri = Some db /\
       forall k v, versions db !! k = Some v -> occurs_in k "Gnucash" = false ->
                   version_supported !! k = Some v).
  { intros s Hs. destruct r as [r1 e'] eqn:Hr. simpl in Hs. subst r1.
    apply open_book_ok_inv in Hr as (uri & db & b & Hu & Hdb & Hv & _).
    exists uri, db. split_and!; [done|done|].
    intros k v Hkv Hk. apply (check_version_checked k v Hk).
    apply (proj1 (check_versions_ok _) Hv). by apply elem_of_map_to_list. }
  split; [done|].
  intros uri db k v Hu Hdb Hkv Hk Hne.
  destruct r.1 as [s|] eqn:Hs; [|done].
  destruct (Hok s eq_refl) as (uri' & db' & Hu' & Hdb' & Hall).
  rewrite Hu in Hu'. injection Hu' as <-.
  rewrite Hdb in Hdb'. injection Hdb' as <-.
  by specialize (Hall k v Hkv Hk).
Qed.

Lemma open_book_checks_versions_witness :
  let e := Fixtures.env_with (<["splits" := 3]> version_supported) in
  raises (open_book (Some "book.gnucash") None true true false true e).1 /\
  (open_book (Some "book.gnucash") None true true false true e).1 =
    Raise (AssertionError "Unsupported version for table splits : got 3, supported 4").
Proof.
  intros e. split; [|reflexivity].
  apply (proj2 (open_book_checks_versions (Some "book.gnucash") None true true
                  false true e)
           Fixtures.uri0 (Fixtures.db_with (<["splits" := 3]> version_supported))
           "splits" 3); [reflexivity|reflexivity|reflexivity|reflexivity|].
  vm_compute. discriminate.
Defined.

Lemma elem_of_yielded c l (x : option string) :
  x ∈ yielded c l <-> exists o, o ∈ l /\ x ∈ object_to_validate o c.
Proof.
  unfold yielded. rewrite list_elem_of_bind. split; intros (o & H1 & H2); eauto.
Qed.

Lemma elem_of_to_validate s g :
  g ∈ to_validate s <->
  exists c o, o ∈ pending s c /\ Some g ∈ object_to_validate o c.
Proof.
  unfold to_validate. rewrite elem_of_list_to_set, list_elem_of_omap.
  split.
  - intros (x & Hin & Hx). destruct x as [g'|]; simpl in Hx; simplify_eq.
    rewrite !elem_of_app, !elem_of_yielded in Hin.
    destruct Hin as [(o & ? & ?)|[(o & ? & ?)|(o & ? & ?)]];
      [exists Dirty, o|exists New, o|exists Deleted, o]; done.
  - intros (c & o & Hin & Hy). exists (Some g). split; [|done].
    rewrite !elem_of_app, !elem_of_yielded. destruct c; simpl in Hin; eauto.
Qed.

Lemma lookup_write_images (h w : gmap string Transaction) l g :
  foldr (fun g w => match h !! g with
                    | Some tx => <[g := tx]> w
                    | None => w
                    end) w l !! g
  = if bool_decide (g ∈ l) then (if h !! g is Some tx then Some tx else w !! g)
    else w !! g.
Proof.
  induction l as [|x l IH]; [done|]. cbn [foldr].
  destruct (decide (g = x)) as [->|Hne].
  - rewrite bool_decide_eq_true_2 by by left.
    destruct (h !! x) as [tx|] eqn:E; [by rewrite lookup_insert_eq|].
    rewrite IH. by case_bool_decide.
  - assert (Hb : bool_decide (g ∈ x :: l) = bool_decide (g ∈ l)).
    { apply bool_decide_ext. rewrite elem_of_cons. split; [intros [?|?]; done|by right]. }
    rewrite Hb. destruct (h !! x) as [tx|]; [rewrite lookup_insert_ne by done|]; exact IH.
Qed.

Lemma lookup_delete_rows (w : gmap string Transaction) (l : list object) g :
  g ∉ o_guid <$> l ->
  foldr (fun o w => delete (o_guid o) w) w l !! g = w !! g.
Proof.
  induction l as [|o l IH]; [done|]. rewrite fmap_cons, not_elem_of_cons.
  intros [Hne Hl]. cbn [foldr]. rewrite lookup_delete_ne by done. by apply IH.
Qed.

Section FlushProps.
Variable validate : Transaction -> result Transaction.

Lemma validate_tx_cases g s :
  match heap s !! g with
  | None => validate_tx validate g s = (Ok tt, s)
  | Some tx =>
      match validate tx with
      | Ok tx' => validate_tx validate g s = (Ok tt, set_heap (<[g := tx']> (heap s)) s)
      | Raise e => validate_tx validate g s = (Raise e, s)
      end
  end.
Proof.
  unfold validate_tx, m_bind, m_get. destruct (heap s !! g) as [tx|]; [|done].
  unfold m_lift. destruct (validate tx); done.
Qed.

(** The loop of [validate_book] over distinct references: it either
    validates every transaction, leaving each as validation completed it,
    or raises with the error of one of them; only the graph changes. *)
Lemma validate_all_spec l s :
  NoDup l ->
  exists h,
    (m_for l (validate_tx validate) s).2 = set_heap h s /\
    (forall g, g ∉ l -> h !! g = heap s !! g) /\
    match (m_for l (validate_tx validate) s).1 with
    | Ok _ =>
        forall g tx, g ∈ l -> heap s !! g = Some tx ->
          exists tx', validate tx = Ok tx' /\ h !! g = Some tx'
    | Raise e =>
        exists g tx, g ∈ l /\ heap s !! g = Some tx /\ validate tx = Raise e
    end.
Proof.
  revert s. induction l as [|g l IH]; intros s Hnd.
  - exists (heap s). simpl. split_and!; [by destruct s|done|].
    intros g tx Hg. by apply elem_of_nil in Hg.
  - apply NoDup_cons in Hnd as [Hg Hnd]. simpl. unfold m_bind.
    pose proof (validate_tx_cases g s) as Hc.
    destruct (heap s !! g) as [tx|] eqn:Hh.
    + destruct (validate tx) as [tx'|e] eqn:Hv; rewrite Hc.
      * set (s1 := set_heap _ s).
        destruct (IH s1 Hnd) as (h & Hs & Hout & Hres).
        exists h. split_and!.
        -- rewrite Hs. by destruct s.
        -- intros g' Hg'. rewrite Hout by (intros ?; apply Hg'; by right).
           subst s1. simpl. apply lookup_insert_ne. intros ->. apply Hg'. by left.
        -- destruct (m_for l (validate_tx validate) s1).1 as [[]|e] eqn:Hr.
           ++ intros g' tx0 [->|Hin]%elem_of_cons Hl0.
              ** simplify_eq. exists tx'. split; [done|].
                 rewrite Hout by done. subst s1. simpl. apply lookup_insert_eq.
              ** apply Hres; [done|]. subst s1. simpl.
                 rewrite lookup_insert_ne; [done|]. intros ->. done.
           ++ destruct Hres as (g' & tx0 & Hin & Hl0 & Hv0).
              exists g', tx0. split_and!; [by right| |done].
              subst s1. simpl in Hl0. rewrite lookup_insert_ne in Hl0; [done|].
              intros ->. done.
      * exists (heap s). split_and!; [by destruct s|done|].
        simpl. exists g, tx. split_and!; [by left|done|done].
    + rewrite Hc. destruct (IH s Hnd) as (h & Hs & Hout & Hres).
      exists h. split_and!; [done| |].
      * intros g' Hg'. apply Hout. intros ?. apply Hg'. by right.
      * destruct (m_for l (validate_tx validate) s).1 as [[]|e] eqn:Hr.
        -- intros g' tx0 [->|Hin]%elem_of_cons Hl0; [congruence|by apply Hres].
        -- destruct Hres as (g' & tx0 & Hin & Hl0 & Hv0).
           exists g', tx0. split_and!; [by right|done|done].
Qed.


Lemma validate_book_spec s :
  exists h,
    (validate_book validate s).2 = set_heap h s /\
    (forall g, g ∉ to_validate s -> h !! g = heap s !! g) /\
    match (validate_book validate s).1 with
    | Ok _ =>
        forall g tx, g ∈ to_validate s -> heap s !! g = Some tx ->
          exists tx', validate tx = Ok tx' /\ h !! g = Some tx'
    | Raise e =>
        exists g tx, g ∈ to_validate s /\ heap s !! g = Some tx /\
                     validate tx = Raise e
    end.
Proof.
  unfold validate_book, m_bind, m_get.
  destruct (validate_all_spec (elements (to_validate s)) s (NoDup_elements _))
    as (h & Hs & Hout & Hres).
  exists h. split_and!; [done| |].
  - intros g Hg. apply Hout. by rewrite elem_of_elements.
  - destruct (m_for _ _ s).1; setoid_rewrite elem_of_elements in Hres; done.
Qed.

(** C5: [validate_book] collects the transactions that the dirty, new and
    deleted objects yield, each once and [None] left out; it raises
    exactly when one of them fails its validation; then the flush and
    the commit raise too and nothing is written or stored, as with a
    batch of one valid and one invalid transaction; a batch whose
    transactions all pass is committed, and each is stored as validation
    left it. *)
Theorem validate_book_rejects_batch s :
  (forall g, g ∈ to_validate s <->
     exists c o, o ∈ pending s c /\ Some g ∈ object_to_validate o c) /\
  NoDup (elements (to_validate s)) /\
  (raises (validate_book validate s).1 <->
   exists g tx, g ∈ to_validate s /\ heap s !! g = Some tx /\ raises (validate tx)) /\
  (raises (validate_book validate s).1 ->
   raises (flush validate s).1 /\ raises (commit validate s).1 /\
   stored (flush validate s).2 = stored s /\
   written (flush validate s).2 = written s /\
   stored (commit validate s).2 = stored s /\
   written (commit validate s).2 = written s) /\
  (commit_locked s = false -> ~ raises (validate_book validate s).1 ->
   (commit validate s).1 = Ok tt /\
   forall g tx, g ∈ to_validate s -> heap s !! g = Some tx ->
     g ∉ o_guid <$> deleted s ->
     exists tx', validate tx = Ok tx' /\
                 stored (commit validate s).2 !! g = Some tx').
Proof.
  destruct (validate_book_spec s) as (h & Hs & Hout & Hres).
  split_and!.
  - apply elem_of_to_validate.
  - apply NoDup_elements.
  - destruct (validate_book validate s).1 as [[]|e]; simpl.
    + split; [done|]. intros (g & tx & Hg & Hh & Hr).
      destruct (Hres g tx Hg Hh) as (tx' & Hv & _). by rewrite Hv in Hr.
    + split; [|done]. intros _. destruct Hres as (g & tx & Hg & Hh & Hv).
      exists g, tx. split_and!; [done|done|by rewrite Hv].
  - intros Hr. unfold commit, sa_commit, flush, m_bind, m_get.
    destruct (validate_book validate s) as [[[]|e] s'] eqn:E; [done|].
    simpl in Hs. subst s'.
    destruct (commit_locked s); cbn beta; [done|]. rewrite E. done.
  - intros Hlock Hnr. unfold commit, sa_commit, flush, m_bind, m_get. rewrite Hlock.
    destruct (validate_book validate s) as [[[]|e] s'] eqn:E; [|by destruct Hnr].
    simpl in Hs. subst s'. simpl. split; [done|].
    intros g tx Hg Hh Hdel. destruct (Hres g tx Hg Hh) as (tx' & Hv & Hh').
    exists tx'. split; [done|].
    rewrite lookup_delete_rows by done.
    rewrite lookup_write_images. simpl.
    rewrite bool_decide_eq_true_2 by by rewrite elem_of_elements.
    by rewrite Hh'.
Qed.

End FlushProps.


Lemma validate_book_rejects_batch_witness :
  let v := Transaction.validate false in
  (forall g, g ∈ to_validate Fixtures.batch_mixed <-> g = "tr-basic" \/ g = "tr-cdty") /\
  raises (commit v Fixtures.batch_mixed).1 /\
  stored (commit v Fixtures.batch_mixed).2 = stored Fixtures.batch_mixed /\
  written (commit v Fixtures.batch_mixed).2 = written Fixtures.batch_mixed /\
  (commit v Fixtures.batch_valid).1 = Ok tt /\
  exists tx', v Fixtures.tr_basic = Ok tx' /\
              stored (commit v Fixtures.batch_valid).2 !! "tr-basic" = Some tx'.
Proof.
  intros v.
  destruct (validate_book_rejects_batch v Fixtures.batch_mixed)
    as (Hset & _ & Hiff & Hrej & _).
  destruct (validate_book_rejects_batch v Fixtures.batch_valid)
    as (Hset' & _ & Hiff' & _ & Hacc).
  assert (Hin : "tr-cdty" ∈ to_validate Fixtures.batch_mixed).
  { apply Hset. exists New, (Fixtures.transaction_object (Fixtures.tr_cdty None [])).
    split; [right; left|left]. }
  assert (Hr : raises (validate_book v Fixtures.batch_mixed).1).
  { apply Hiff. exists "tr-cdty", (Fixtures.tr_cdty None []).
    split_and!; [exact Hin|reflexivity|exact I]. }
  destruct (Hrej Hr) as (_ & Hc & _ & _ & Hst & Hwr).
  split_and!; [|exact Hc|exact Hst|exact Hwr| |].
  - intros g. rewrite <- elem_of_elements.
    let l := eval vm_compute in (elements (to_validate Fixtures.batch_mixed)) in
    change (elements (to_validate Fixtures.batch_mixed)) with l.
    rewrite !elem_of_cons, elem_of_nil. tauto.
  - apply Hacc; [reflexivity|]. vm_compute. tauto.
  - assert (Hin' : "tr-basic" ∈ to_validate Fixtures.batch_valid).
    { apply Hset'. exists New, (Fixtures.transaction_object Fixtures.tr_basic).
      split; left. }
    destruct Hacc as [_ Hacc]; [reflexivity|vm_compute; tauto|].
    apply (Hacc "tr-basic" Fixtures.tr_basic Hin'); [reflexivity|].
    apply not_elem_of_nil.
Defined.

Lemma commit_locked_mutate s ms :
  commit_locked (foldl mutate s ms) = commit_locked s.
Proof.
  revert s. induction ms as [|m ms IH]; intros s; [done|].
  simpl. rewrite IH. by destruct m.
Qed.

Lemma commit_locked_raises validate s :
  commit_locked s = true ->
  commit validate s = (Raise (GnucashException locked_msg), s).
Proof. intros H. unfold commit, m_bind, m_get. by rewrite H. Qed.

(** C6: the commit of a session adapted as read-only raises, and so does
    every commit of a book opened read-only, whatever was changed in the
    object graph before; adding, creating and modifying objects is carried
    out all the same. *)
Theorem readonly_session_refuses_commit validate :
  (forall s b,
     commit validate (adapt_session s b true) =
       (Raise (GnucashException locked_msg), adapt_session s b true)) /\
  (forall sqlite_file uri_conn acquire_lock open_if_lock do_backup e s e' ms,
     open_book sqlite_file uri_conn acquire_lock true open_if_lock do_backup e
       = (Ok s, e') ->
     commit validate (foldl mutate s ms) =
       (Raise (GnucashException locked_msg), foldl mutate s ms)) /\
  (forall s b o, new (add o (adapt_session s b true)) = new s ++ [o]) /\
  (forall s b o tx,
     heap (create o tx (adapt_session s b true)) !! Transaction.t_guid tx = Some tx /\
     new (create o tx (adapt_session s b true)) = new s ++ [o]) /\
  (forall s b o tx,
     heap (modify o tx (adapt_session s b true)) !! Transaction.t_guid tx = Some tx /\
     dirty (modify o tx (adapt_session s b true)) = dirty s ++ [o]).
Proof.
  split_and!.
  - intros s b. by apply commit_locked_raises.
  - intros sf uc al oil bk e s e' ms Hopen.
    apply commit_locked_raises. rewrite commit_locked_mutate.
    apply open_book_ok_inv in Hopen as (uri & db & b & _ & _ & _ & _ & ->).
    done.
  - done.
  - intros s b o tx. split; [apply lookup_insert_eq|done].
  - intros s b o tx. split; [apply lookup_insert_eq|done].
Qed.

Lemma readonly_session_refuses_commit_witness :
  let v := Transaction.validate false in
  let e := Fixtures.env_with version_supported in
  let s := adapt_session (new_session Fixtures.uri0
                            (Fixtures.db_with version_supported))
                         Fixtures.book0 true in
  let s' := foldl mutate s
              [Create (Fixtures.transaction_object Fixtures.tr_basic)
                      Fixtures.tr_basic] in
  open_book (Some "book.gnucash") None true true false true e = (Ok s, e) /\
  heap s' !! "tr-basic" = Some Fixtures.tr_basic /\
  commit v s' = (Raise (GnucashException locked_msg), s').
Proof.
  intros v e s s'.
  assert (Hopen : open_book (Some "book.gnucash") None true true false true e
                  = (Ok s, e)) by reflexivity.
  split_and!; [exact Hopen|reflexivity|].
  exact (proj1 (proj2 (readonly_session_refuses_commit v))
           _ _ _ _ _ _ _ _
           [Create (Fixtures.transaction_object Fixtures.tr_basic) Fixtures.tr_basic]
           Hopen).
Defined.

End SessionProps.

(** * Further properties *)

(** ** Price updates *)

Module CommodityExtras.
Import Commodity.

Lemma update_prices_start self start w :
  update_prices self start w =
  match book_of w self with
  | None =>
      (Raise (GncPriceError
         "Cannot update price for a commodity not attached to a book"), w)
  | Some book =>
      let start_date := effective_start w self start in
      (if decide (namespace self = "CURRENCY") then
        m_bind (m_lift (base_currency w self)) (fun default_currency =>
        if same default_currency self then
          m_raise (GncPriceError "Cannot update exchange rate for base currency")
        else
          m_bind (log_request (QuandlFx (mnemonic self) (mnemonic default_currency)
                                start_date)) (fun _ =>
          m_bind (m_lift (quandl_fx w (mnemonic self)
                                   (mnemonic default_currency) start_date)) (fun quotes =>
          m_for quotes (fun q =>
            add_price (new_price self default_currency (midnight q.1) q.2 None)))))
      else
        let symbol := mnemonic self in
        m_bind (log_request (YahooShare symbol)) (fun _ =>
        m_bind (m_lift (yahoo_share w symbol)) (fun share_currency =>
        m_bind (m_lift (currencies book share_currency)) (fun currency =>
        m_bind (log_request (YahooHistorical symbol start_date (w_today w))) (fun _ =>
        m_bind (m_lift (yahoo_historical w symbol start_date (w_today w))) (fun quotes =>
        m_for quotes (fun q =>
          add_price (new_price self currency (midnight q.1) q.2 (Some "last")))))))))
      w
  end.
Proof.
  unfold update_prices, m_bind at 1, m_get. destruct (book_of w self); reflexivity.
Qed.

(** X11: for a currency other than the book's default one, when quandl
    answers, [update_prices] succeeds, sends that one request and appends
    one row per quote, in order: this commodity priced in the default
    currency at midnight of the quoted day, of type unknown and source
    user:price, with the quoted rate. *)
Theorem update_prices_currency_rows self start w b qs :
  book_of w self = Some b ->
  namespace self = "CURRENCY" ->
  same (default_currency b) self = false ->
  quandl_fx w (mnemonic self) (mnemonic (default_currency b))
            (effective_start w self start) = Ok qs ->
  update_prices self start w =
    (Ok tt,
     extend w
       ((fun q => mkPrice (guid self) (guid (default_currency b))
                          (q.1 * 86400) "user:price" "unknown" q.2) <$> qs)
       [QuandlFx (mnemonic self) (mnemonic (default_currency b))
                 (effective_start w self start)]).
Proof.
  intros Hb Hns Hsame Hq. rewrite update_prices_start, Hb. cbv zeta.
  rewrite decide_True by done. unfold base_currency. rewrite Hb.
  rewrite decide_True by done. unfold m_bind at 1, m_lift at 1. rewrite Hsame.
  unfold m_bind at 1, log_request, m_modify. unfold m_bind at 1, m_lift.
  cbn [quandl_fx]. rewrite Hq.
  rewrite CommodityProps.for_add_price. reflexivity.
Qed.


Lemma update_prices_currency_rows_witness :
  update_prices Fixtures.USD (Some 109) Fixtures.world0 =
    (Ok tt,
     extend Fixtures.world0
       [mkPrice "guid-USD" "guid-EUR" (109 * 86400) "user:price" "unknown" (11 # 10);
        mkPrice "guid-USD" "guid-EUR" (110 * 86400) "user:price" "unknown" (11 # 10)]
       [QuandlFx "USD" "EUR" 109]).
Proof.
  apply (update_prices_currency_rows Fixtures.USD (Some 109) Fixtures.world0
           Fixtures.book0 [(109, 11 # 10); (110, 11 # 10)]); reflexivity.
Defined.

(** X12: for a commodity that is no currency, [update_prices] asks yahoo for
    the currency of the share, finds it among the book's currencies, asks
    for the history from the start date to today, and appends one row per
    quote, of type last, priced in that currency. *)
Theorem update_prices_share_rows self start w b cn cur qs :
  book_of w self = Some b ->
  namespace self <> "CURRENCY" ->
  yahoo_share w (mnemonic self) = Ok cn ->
  currencies b cn = Ok cur ->
  yahoo_historical w (mnemonic self) (effective_start w self start) (w_today w)
    = Ok qs ->
  update_prices self start w =
    (Ok tt,
     extend w
       ((fun q => mkPrice (guid self) (guid cur) (q.1 * 86400)
                          "user:price" "last" q.2) <$> qs)
       [YahooShare (mnemonic self);
        YahooHistorical (mnemonic self) (effective_start w self start) (w_today w)]).
Proof.
  intros Hb Hns Hs Hc Hq. rewrite update_prices_start, Hb. cbv zeta.
  rewrite decide_False by done.
  unfold m_bind at 1, log_request, m_modify. unfold m_bind at 1, m_lift at 1.
  cbn [yahoo_share]. rewrite Hs.
  unfold m_bind at 1, m_lift at 1. rewrite Hc.
  unfold m_bind at 1, m_modify. unfold m_bind at 1, m_lift.
  cbn [yahoo_historical w_today]. rewrite Hq.
  rewrite CommodityProps.for_add_price. unfold extend. cbn.
  by rewrite <- app_assoc.
Qed.

Lemma update_prices_share_rows_witness :
  update_prices Fixtures.ACME (Some 109) Fixtures.world0 =
    (Ok tt,
     extend Fixtures.world0
       [mkPrice "guid-ACME" "guid-EUR" (109 * 86400) "user:price" "last" (5 # 1);
        mkPrice "guid-ACME" "guid-EUR" (110 * 86400) "user:price" "last" (5 # 1)]
       [YahooShare "ACME"; YahooHistorical "ACME" 109 110]).
Proof.
  apply (update_prices_share_rows Fixtures.ACME (Some 109) Fixtures.world0
           Fixtures.book0 "EUR" Fixtures.EUR [(109, 5 # 1); (110, 5 # 1)]);
    [reflexivity|discriminate|reflexivity|reflexivity|reflexivity].
Defined.

(** X13: an exception of a provider, or of the lookup of the share's
    currency in the book, leaves [update_prices] as it is, no row being
    added; when the currency of the share is not found the history is not
    even asked for. *)
Theorem update_prices_provider_errors self start w b e :
  book_of w self = Some b ->
  let start' := effective_start w self start in
  (namespace self = "CURRENCY" -> same (default_currency b) self = false ->
   quandl_fx w (mnemonic self) (mnemonic (default_currency b)) start' = Raise e ->
   update_prices self start w =
     (Raise e, extend w []
                 [QuandlFx (mnemonic self) (mnemonic (default_currency b)) start'])) /\
  (namespace self <> "CURRENCY" ->
   yahoo_share w (mnemonic self) = Raise e ->
   update_prices self start w =
     (Raise e, extend w [] [YahooShare (mnemonic self)])) /\
  (forall cn, namespace self <> "CURRENCY" ->
   yahoo_share w (mnemonic self) = Ok cn -> currencies b cn = Raise e ->
   update_prices self start w =
     (Raise e, extend w [] [YahooShare (mnemonic self)])) /\
  (forall cn cur, namespace self <> "CURRENCY" ->
   yahoo_share w (mnemonic self) = Ok cn -> currencies b cn = Ok cur ->
   yahoo_historical w (mnemonic self) start' (w_today w) = Raise e ->
   update_prices self start w =
     (Raise e, extend w []
                 [YahooShare (mnemonic self);
                  YahooHistorical (mnemonic self) start' (w_today w)])).
Proof.
  intros Hb start'. rewrite update_prices_start, Hb. cbv zeta. fold start'.
  split_and!.
  - intros Hns Hsame Hq. rewrite decide_True by done. unfold base_currency.
    rewrite Hb. rewrite decide_True by done.
    unfold m_bind at 1, m_lift at 1. rewrite Hsame.
    unfold m_bind at 1, log_request, m_modify. unfold m_bind at 1, m_lift.
    cbn [quandl_fx]. rewrite Hq. unfold extend. cbn. by rewrite app_nil_r.
  - intros Hns Hs. rewrite decide_False by done.
    unfold m_bind at 1, log_request, m_modify. unfold m_bind at 1, m_lift at 1.
    cbn [yahoo_share]. rewrite Hs. unfold extend. cbn. by rewrite app_nil_r.
  - intros cn Hns Hs Hc. rewrite decide_False by done.
    unfold m_bind at 1, log_request, m_modify. unfold m_bind at 1, m_lift at 1.
    cbn [yahoo_share]. rewrite Hs.
    unfold m_bind at 1, m_lift at 1. rewrite Hc.
    unfold extend. cbn. by rewrite app_nil_r.
  - intros cn cur Hns Hs Hc Hq. rewrite decide_False by done.
    unfold m_bind at 1, log_request, m_modify. unfold m_bind at 1, m_lift at 1.
    cbn [yahoo_share]. rewrite Hs.
    unfold m_bind at 1, m_lift at 1. rewrite Hc.
    unfold m_bind at 1, m_modify. unfold m_bind at 1, m_lift.
    cbn [yahoo_historical w_today]. rewrite Hq.
    unfold extend. cbn. by rewrite app_nil_r, <- app_assoc.
Qed.

Lemma update_prices_provider_errors_witness :
  update_prices Fixtures.USD None MoreFixtures.world_down =
    (Raise (ProviderError "quandl is down"),
     extend MoreFixtures.world_down [] [QuandlFx "USD" "EUR" 103]) /\
  update_prices Fixtures.ACME None MoreFixtures.world_down =
    (Raise (ProviderError "yahoo is down"),
     extend MoreFixtures.world_down [] [YahooShare "ACME"]) /\
  update_prices Fixtures.ACME None MoreFixtures.world_unknown_currency =
    (Raise (KeyError "XXX"),
     extend MoreFixtures.world_unknown_currency [] [YahooShare "ACME"]).
Proof.
  split_and!.
  - apply (proj1 (update_prices_provider_errors Fixtures.USD None
                    MoreFixtures.world_down Fixtures.book0
                    (ProviderError "quandl is down") eq_refl)); reflexivity.
  - apply (proj1 (proj2 (update_prices_provider_errors Fixtures.ACME None
                    MoreFixtures.world_down Fixtures.book0
                    (ProviderError "yahoo is down") eq_refl)));
      [discriminate|reflexivity].
  - apply (proj1 (proj2 (proj2 (update_prices_provider_errors Fixtures.ACME None
                    MoreFixtures.world_unknown_currency Fixtures.book0
                    (KeyError "XXX") eq_refl))) "XXX");
      [discriminate|reflexivity|reflexivity].
Defined.

(** X14: for a commodity without any price row, whatever rows other
    commodities have, every dated request of [update_prices] starts at the
    start date given, or seven days before today when none is given. *)
Theorem update_prices_first_fetch self start w :
  (forall p, p ∈ w_prices w -> commodity_guid p <> guid self) ->
  exists added rs,
    (update_prices self start w).2 = extend w added rs /\
    forall r d, r ∈ rs -> request_start r = Some d ->
      d = match start with Some d0 => d0 | None => w_today w - 7 end.
Proof.
  intros Hnone.
  destruct (CommodityProps.update_prices_appends self start w)
    as (added & rs & Heq & _ & Hrs & _).
  exists added, rs. split; [done|]. intros r d Hr Hd.
  destruct (Hrs r Hr) as [Hn|Hs]; [congruence|].
  rewrite Hd in Hs. injection Hs as ->.
  unfold effective_start, requested_start.
  assert (Hempty : prices_of w self = []).
  { destruct (prices_of w self) as [|p l] eqn:E; [done|].
    assert (Hp : p ∈ prices_of w self) by (rewrite E; left).
    unfold prices_of in Hp. apply list_elem_of_filter in Hp as [H1 H2].
    by apply Hnone in H2. }
  rewrite Hempty. simpl. destruct start; lia.
Qed.


Lemma update_prices_first_fetch_witness :
  w_requests (update_prices Fixtures.ACME None Fixtures.world0).2 =
    [YahooShare "ACME"; YahooHistorical "ACME" 103 110] /\
  exists added rs,
    (update_prices Fixtures.ACME None Fixtures.world0).2 =
      extend Fixtures.world0 added rs /\
    forall r d, r ∈ rs -> request_start r = Some d -> d = 103.
Proof.
  split; [reflexivity|].
  destruct (update_prices_first_fetch Fixtures.ACME None Fixtures.world0)
    as (added & rs & Heq & Hrs).
  - intros p Hp. apply list_elem_of_singleton in Hp as ->. discriminate.
  - exists added, rs. split; [exact Heq|]. intros r d Hr Hd.
    rewrite (Hrs r d Hr Hd). reflexivity.
Defined.

End CommodityExtras.

(** ** Opening books and running sessions *)

Module SessionExtras.
Import Session.

Lemma check_version_accepts k v :
  check_version (k, v) = Ok tt <->
  occurs_in k "Gnucash" = true \/ version_supported !! k = Some v.
Proof.
  unfold check_version. destruct (occurs_in k "Gnucash") eqn:Hk.
  - split; auto.
  - destruct (version_supported !! k) as [supported|].
    + case_decide; split; intros; simplify_eq; auto.
      * destruct H0 as [?|?]; congruence.
    + split; [done|]. intros [?|?]; congruence.
Qed.

Lemma check_versions_accepts (m : gmap string Z) :
  check_versions (map_to_list m) = Ok tt <->
  forall k v, m !! k = Some v ->
    occurs_in k "Gnucash" = true \/ version_supported !! k = Some v.
Proof.
  rewrite SessionProps.check_versions_ok. split.
  - intros H k v Hkv. apply check_version_accepts, H. by apply elem_of_map_to_list.
  - intros H [k v] Hkv. apply check_version_accepts, H. by apply elem_of_map_to_list.
Qed.

Lemma one_singleton {A} (l : list A) b : one l = Ok b <-> l = [b].
Proof.
  destruct l as [|x [|y l]]; simpl; split; intros; simplify_eq; done.
Qed.

(** The steps of [open_book] once the database is found. *)
Lemma open_book_found sqlite_file uri_conn acquire_lock readonly open_if_lock
    do_backup e uri db :
  resolve_uri sqlite_file uri_conn = Ok uri ->
  databases e !! uri = Some db ->
  open_book sqlite_file uri_conn acquire_lock readonly open_if_lock do_backup e =
  let after (e' : Env) : result Session * Env :=
    if bool_decide (gnclock db <> []) && negb open_if_lock
    then (Raise (GnucashException "Lock on the file"), e')
    else match check_versions (map_to_list (versions db)) with
         | Raise x => (Raise x, e')
         | Ok _ =>
             match one (books db) with
             | Raise x => (Raise x, e')
             | Ok b => (Ok (adapt_session (new_session uri db) b readonly), e')
             end
         end in
  if negb readonly && do_backup then
    if negb (bool_decide (engine_name db = "sqlite")) then
      (Raise (GnucashException
         ("Cannot do a backup for engine '" +:+ engine_name db
          +:+ "'. Do yourself a backup and then specify do_backup=False")), e)
    else if negb (String.prefix sqlite_prefix uri) then
      (Raise (GnucashException
         ("Cannot create a backup for URI '" +:+ uri +:+ "'")), e)
    else
      let url := String.substring (String.length sqlite_prefix)
                   (String.length uri - String.length sqlite_prefix) uri in
      let url_backup := url +:+ "." +:+ now_stamp e +:+ ".gnucash" in
      match copyfile e url url_backup with
      | Raise x => (Raise x, e)
      | Ok _ => after (record_copy url url_backup e)
      end
  else after e.
Proof.
  intros Hu Hdb. unfold open_book, m_bind at 1, m_lift at 1. rewrite Hu.
  unfold m_bind at 1, m_get. rewrite Hdb. cbv zeta.
  unfold m_bind at 1.
  destruct (negb readonly && do_backup).
  - destruct (negb (bool_decide (engine_name db = "sqlite"))); [done|].
    destruct (negb (String.prefix sqlite_prefix uri)); [done|].
    unfold m_bind at 1, m_lift at 1.
    destruct (copyfile e _ _) as [[]|x]; [|done].
    unfold m_modify at 1.
    destruct (bool_decide (gnclock db <> []) && negb open_if_lock); [done|].
    unfold m_bind, m_lift, m_ret.
    destruct (check_versions _) as [[]|]; [|done].
    destruct (one _); done.
  - unfold m_ret at 1.
    destruct (bool_decide (gnclock db <> []) && negb open_if_lock); [done|].
    unfold m_bind, m_lift, m_ret.
    destruct (check_versions _) as [[]|]; [|done].
    destruct (one _); done.
Qed.


Lemma open_book_unresolved sqlite_file uri_conn acquire_lock readonly open_if_lock
    do_backup e x :
  resolve_uri sqlite_file uri_conn = Raise x ->
  open_book sqlite_file uri_conn acquire_lock readonly open_if_lock do_backup e
    = (Raise x, e).
Proof. intros Hu. unfold open_book, m_bind at 1, m_lift at 1. by rewrite Hu. Qed.

Lemma open_book_not_found sqlite_file uri_conn acquire_lock readonly open_if_lock
    do_backup e uri :
  resolve_uri sqlite_file uri_conn = Ok uri ->
  databases e !! uri = None ->
  open_book sqlite_file uri_conn acquire_lock readonly open_if_lock do_backup e
    = (Raise (GnucashException
         ("Database '" +:+ uri +:+ "' does not exist (please use create_book "
          +:+ "to create GnuCash books from scratch)")), e).
Proof.
  intros Hu Hdb. unfold open_book, m_bind at 1, m_lift at 1. rewrite Hu.
  unfold m_bind at 1, m_get. by rewrite Hdb.
Qed.

(** X1: [open_book] takes [uri_conn] when it is given, whatever
    [sqlite_file] is; a non-empty [sqlite_file] alone stands for the
    connection string sqlite:/// followed by it; with neither, or with an
    empty [sqlite_file], it raises ValueError and touches nothing. *)
Theorem open_book_arguments acquire_lock readonly open_if_lock do_backup e :
  let open sf uc := open_book sf uc acquire_lock readonly open_if_lock do_backup e in
  (forall sf u, open sf (Some u) = open None (Some u)) /\
  (forall f, f <> EmptyString ->
     open (Some f) None = open None (Some ("sqlite:///" +:+ f))) /\
  open None None =
    (Raise (ValueError "One sqlite_file and uri_conn arguments should be given."), e) /\
  open (Some EmptyString) None = open None None.
Proof.
  intros open. subst open. cbv beta. split_and!.
  - reflexivity.
  - intros f Hf. unfold open_book, resolve_uri, truthy. cbn [default].
    by rewrite decide_False.
  - reflexivity.
  - reflexivity.
Qed.

(** X2: [open_book] returns a session exactly when the connection string
    resolves to an existing database, a backup, if one is due (read-write
    with [do_backup]), can be made (sqlite engine, sqlite:/// string, and
    [shutil.copyfile] of what follows sqlite:/// does not raise), the
    database has no lock row or [open_if_lock] is set, every row of the
    versions table is skipped or equals the supported version, and the
    books table has exactly one row; the session is then the fresh session
    on that database adapted to that book. *)
Theorem open_book_succeeds_iff sqlite_file uri_conn acquire_lock readonly
    open_if_lock do_backup e s :
  (open_book sqlite_file uri_conn acquire_lock readonly open_if_lock do_backup e).1
    = Ok s <->
  exists uri db b,
    resolve_uri sqlite_file uri_conn = Ok uri /\
    databases e !! uri = Some db /\
    (readonly = false -> do_backup = true ->
     engine_name db = "sqlite" /\ String.prefix "sqlite:///" uri = true /\
     let url := String.substring (String.length "sqlite:///")
                  (String.length uri - String.length "sqlite:///") uri in
     copyfile e url (url +:+ "." +:+ now_stamp e +:+ ".gnucash") = Ok tt) /\
    (gnclock db = [] \/ open_if_lock = true) /\
    (forall k v, versions db !! k = Some v ->
       occurs_in k "Gnucash" = true \/ version_supported !! k = Some v) /\
    books db = [b] /\
    s = adapt_session (new_session uri db) b readonly.
Proof.
  destruct (resolve_uri sqlite_file uri_conn) as [uri|x] eqn:Hu.
  2:{ rewrite (open_book_unresolved _ _ _ _ _ _ _ _ Hu). split; [done|].
      intros (? & ? & ? & ? & _). done. }
  destruct (databases e !! uri) as [db|] eqn:Hdb.
  2:{ rewrite (open_book_not_found _ _ _ _ _ _ _ _ Hu Hdb). split; [done|].
      intros (? & ? & ? & ? & ? & _). simplify_eq. }
  rewrite (open_book_found _ _ _ _ _ _ _ _ _ Hu Hdb). cbv zeta.
  assert (Hafter : forall e' : Env,
    (if bool_decide (gnclock db <> []) && negb open_if_lock
     then (Raise (GnucashException "Lock on the file"), e')
     else match check_versions (map_to_list (versions db)) with
          | Raise x => (Raise x, e')
          | Ok _ => match one (books db) with
                    | Raise x => (Raise x, e')
                    | Ok b => (Ok (adapt_session (new_session uri db) b readonly), e')
                    end
          end).1 = Ok s <->
    (gnclock db = [] \/ open_if_lock = true) /\
    (forall k v, versions db !! k = Some v ->
       occurs_in k "Gnucash" = true \/ version_supported !! k = Some v) /\
    exists b, books db = [b] /\ s = adapt_session (new_session uri db) b readonly).
  { intros e'. rewrite <- check_versions_accepts.
    destruct (bool_decide (gnclock db <> []) && negb open_if_lock) eqn:Hl.
    - apply andb_true_iff in Hl as [Hl1 Hl2]. apply bool_decide_eq_true in Hl1.
      apply negb_true_iff in Hl2. split; [done|]. intros ([?|?] & _); congruence.
    - assert (Hlock : gnclock db = [] \/ open_if_lock = true).
      { apply andb_false_iff in Hl as [Hl|Hl].
        - apply bool_decide_eq_false in Hl. left.
          destruct (gnclock db); [done|]. exfalso. by apply Hl.
        - apply negb_false_iff in Hl. by right. }
      destruct (check_versions _) as [[]|x].
      + destruct (one (books db)) as [b|x] eqn:Hone; simpl.
        * apply one_singleton in Hone. split.
          -- intros [= <-]. eauto.
          -- intros (_ & _ & b' & Hb' & ->). congruence.
        * split; [done|]. intros (_ & _ & b' & Hb' & _).
          apply one_singleton in Hb'. congruence.
      + simpl. split; [done|]. intros (_ & ? & _). done. }
  split.
  - intros Hs. exists uri, db.
    destruct (negb readonly && do_backup) eqn:Hbk.
    + apply andb_true_iff in Hbk as [Hro ->]. apply negb_true_iff in Hro as ->.
      destruct (negb (bool_decide (engine_name db = "sqlite"))) eqn:He; [done|].
      destruct (negb (String.prefix sqlite_prefix uri)) eqn:Hp; [done|].
      destruct (copyfile e _ _) as [[]|x] eqn:Hcp; [|done].
      apply Hafter in Hs as (Hl & Hv & b & Hb & ->).
      exists b. split_and!; auto. intros _ _.
      apply negb_false_iff in He, Hp. apply bool_decide_eq_true in He. done.
    + apply Hafter in Hs as (Hl & Hv & b & Hb & ->).
      exists b. split_and!; auto. intros -> ->. done.
  - intros (uri' & db' & b & Hu' & Hdb' & Hbk & Hl & Hv & Hb & ->).
    simplify_eq.
    destruct (negb readonly && do_backup) eqn:Hbk'.
    + apply andb_true_iff in Hbk' as [Hro ->]. apply negb_true_iff in Hro as ->.
      destruct (Hbk eq_refl eq_refl) as (He & Hp & Hcp). cbv zeta in Hcp.
      rewrite He. rewrite bool_decide_eq_true_2 by done. cbn [negb].
      unfold sqlite_prefix. rewrite Hp. cbn [negb].
      rewrite Hcp.
      apply Hafter. eauto.
    + apply Hafter. eauto.
Qed.


Lemma open_book_arguments_witness :
  open_book (Some "book.gnucash") None true true false true
            (Fixtures.env_with version_supported) =
  open_book None (Some "sqlite:///book.gnucash") true true false true
            (Fixtures.env_with version_supported).
Proof.
  apply (proj1 (proj2 (open_book_arguments true true false true
                         (Fixtures.env_with version_supported))) "book.gnucash").
  discriminate.
Defined.

Lemma open_book_succeeds_iff_witness :
  (open_book None (Some Fixtures.uri0) true false true true MoreFixtures.env_locked).1
  = Ok (adapt_session
          (new_session Fixtures.uri0
             (mkDatabase "sqlite" [("host", 4242)] version_supported
                         [Fixtures.book0] ∅))
          Fixtures.book0 false).
Proof.
  apply open_book_succeeds_iff.
  exists Fixtures.uri0,
    (mkDatabase "sqlite" [("host", 4242)] version_supported [Fixtures.book0] ∅),
    Fixtures.book0.
  split_and!; [reflexivity|reflexivity| |by right| |reflexivity|reflexivity].
  - intros _ _. split_and!; reflexivity.
  - intros k v Hkv. by right.
Defined.

(** X3: [open_book] never changes a database, so it writes no lock row
    whatever [acquire_lock] is, and its outcome does not depend on
    [acquire_lock]; it makes at most one file copy, and none at all when
    the book is opened read-only or without backup. *)
Theorem open_book_leaves_databases sqlite_file uri_conn acquire_lock readonly
    open_if_lock do_backup e :
  let r := open_book sqlite_file uri_conn acquire_lock readonly open_if_lock
             do_backup e in
  databases r.2 = databases e /\
  now_stamp r.2 = now_stamp e /\
  (copies r.2 = copies e \/ exists c, copies r.2 = copies e ++ [c]) /\
  (readonly = true \/ do_backup = false -> r.2 = e) /\
  (forall acquire_lock',
     open_book sqlite_file uri_conn acquire_lock' readonly open_if_lock do_backup e
     = r).
Proof.
  intros r. subst r.
  split_and!; [| | | |reflexivity].
  all: destruct (resolve_uri sqlite_file uri_conn) as [uri|x] eqn:Hu;
    [|rewrite (open_book_unresolved _ _ _ _ _ _ _ _ Hu); auto].
  all: destruct (databases e !! uri) as [db|] eqn:Hdb;
    [|rewrite (open_book_not_found _ _ _ _ _ _ _ _ Hu Hdb); auto].
  all: rewrite (open_book_found _ _ _ _ _ _ _ _ _ Hu Hdb); cbv zeta.
  all: destruct (negb readonly && do_backup) eqn:Hbk;
    [destruct (negb (bool_decide (engine_name db = "sqlite")));
     [|destruct (negb (String.prefix sqlite_prefix uri));
       [|destruct (copyfile e _ _) as [[]|]]]|].
  all: try (destruct (bool_decide (gnclock db <> []) && negb open_if_lock);
            [|destruct (check_versions _) as [[]|];
              [destruct (one (books db))|]]).
  all: simpl; eauto.
  all: intros [->| ->]; try discriminate Hbk.
  all: by rewrite andb_false_r in Hbk.
Qed.

Lemma open_book_leaves_databases_witness :
  (open_book None (Some Fixtures.uri0) true true false true MoreFixtures.env_locked).2
  = MoreFixtures.env_locked /\
  (open_book None (Some Fixtures.uri0) true true false true MoreFixtures.env_locked).1
  = Raise (GnucashException "Lock on the file").
Proof.
  split; [|reflexivity].
  apply (open_book_leaves_databases None (Some Fixtures.uri0) true true false true
           MoreFixtures.env_locked).
  by left.
Defined.

Lemma substring_all (s : string) : String.substring 0 (String.length s) s = s.
Proof. induction s as [|c s IH]; simpl; [done|]. by rewrite IH. Qed.

(** X4: opened read-write with [do_backup] on a sqlite database,
    [open_book] copies the file to its name followed by the time stamp and
    .gnucash before it looks at locks, versions and books: when the copy
    succeeds it is made even if the opening then fails, and when
    [shutil.copyfile] raises, [open_book] raises that exception with
    nothing copied; on another engine it raises before anything is
    copied. *)
Theorem open_book_backup_first sqlite_file acquire_lock open_if_lock e f db :
  databases e !! ("sqlite:///" +:+ f) = Some db ->
  let r := open_book sqlite_file (Some ("sqlite:///" +:+ f)) acquire_lock false
             open_if_lock true e in
  let backup := f +:+ "." +:+ now_stamp e +:+ ".gnucash" in
  (engine_name db = "sqlite" -> copyfile e f backup = Ok tt ->
   r.2 = record_copy f backup e) /\
  (forall x, engine_name db = "sqlite" -> copyfile e f backup = Raise x ->
   r = (Raise x, e)) /\
  (engine_name db <> "sqlite" ->
   r = (Raise (GnucashException
          ("Cannot do a backup for engine '" +:+ engine_name db
           +:+ "'. Do yourself a backup and then specify do_backup=False")), e)).
Proof.
  intros Hdb r backup. subst r backup.
  rewrite (open_book_found sqlite_file (Some ("sqlite:///" +:+ f)) acquire_lock
             false open_if_lock true e _ db eq_refl Hdb).
  cbv zeta. cbn [negb andb].
  change (String.prefix sqlite_prefix ("sqlite:///" +:+ f))
    with (String.prefix EmptyString f).
  assert (Hp : String.prefix EmptyString f = true) by (by destruct f).
  rewrite Hp. cbn [negb].
  change (String.substring (String.length sqlite_prefix)
            (String.length ("sqlite:///" +:+ f) - String.length sqlite_prefix)
            ("sqlite:///" +:+ f))
    with (String.substring 0 (String.length f - 0) f).
  rewrite Nat.sub_0_r, substring_all.
  split_and!.
  - intros -> ->. rewrite bool_decide_eq_true_2 by done. cbn [negb].
    destruct (bool_decide (gnclock db <> []) && negb open_if_lock); [done|].
    destruct (check_versions _) as [[]|]; [|done].
    by destruct (one (books db)).
  - intros x -> ->. by rewrite bool_decide_eq_true_2.
  - intros Hne. by rewrite bool_decide_eq_false_2.
Qed.

Lemma open_book_backup_first_witness :
  let r := open_book None (Some Fixtures.uri0) true false false true
             MoreFixtures.env_locked in
  let r' := open_book None (Some "sqlite:///:memory:") true false false true
              MoreFixtures.env_memory in
  (r.1 = Raise (GnucashException "Lock on the file") /\
   r.2 = record_copy "book.gnucash" "book.gnucash.20140101120000.gnucash"
                     MoreFixtures.env_locked) /\
  r' = (Raise (OSError "No such file or directory: ':memory:'"),
        MoreFixtures.env_memory).
Proof.
  intros r r'. split; [split; [reflexivity|]|].
  - apply (proj1 (open_book_backup_first None true false MoreFixtures.env_locked
                    "book.gnucash"
                    (mkDatabase "sqlite" [("host", 4242)] version_supported
                                [Fixtures.book0] ∅) eq_refl));
      reflexivity.
  - apply (proj1 (proj2 (open_book_backup_first None true false
                    MoreFixtures.env_memory ":memory:"
                    (Fixtures.db_with version_supported) eq_refl)));
      reflexivity.
Defined.


(** X5: [adapt_session] only ever installs [readonly_commit]: adapting a
    read-only session again with [readonly=False] leaves its commit
    raising; adapting twice with the same arguments is adapting once. *)
Theorem adapt_session_readonly_sticky validate s b b' :
  commit validate (adapt_session (adapt_session s b true) b' false) =
    (Raise (GnucashException locked_msg),
     adapt_session (adapt_session s b true) b' false) /\
  (forall readonly,
     adapt_session (adapt_session s b readonly) b readonly
     = adapt_session s b readonly).
Proof.
  split; [by apply SessionProps.commit_locked_raises|].
  intros []; reflexivity.
Qed.

Lemma is_saved_true s :
  is_saved s = true <->
  _is_modified s = false /\ new s = [] /\ dirty s = [] /\ deleted s = [].
Proof.
  unfold is_saved. rewrite negb_true_iff, !orb_false_iff, !bool_decide_eq_false.
  split.
  - intros (((Hm & Hd) & Hx) & Hn). split_and!; [done| | |].
    + destruct (new s); [done|]. exfalso. by apply Hn.
    + destruct (dirty s); [done|]. exfalso. by apply Hd.
    + destruct (deleted s); [done|]. exfalso. by apply Hx.
  - intros (-> & -> & -> & ->). split_and!; auto.
Qed.

Lemma to_validate_nothing s :
  new s = [] -> dirty s = [] -> deleted s = [] -> to_validate s = ∅.
Proof. unfold to_validate. by intros -> -> ->. Qed.

Section RunProps.
Variable validate : Transaction -> result Transaction.

(** The two outcomes of a flush. *)
Lemma flush_cases s :
  exists h,
    (forall g, g ∉ to_validate s -> h !! g = heap s !! g) /\
    ((exists e, flush validate s = (Raise e, set_heap h s) /\
                (validate_book validate s).1 = Raise e) \/
     (flush validate s = (Ok tt, write_pending (set_heap h s)) /\
      (validate_book validate s).1 = Ok tt)).
Proof.
  destruct (SessionProps.validate_book_spec validate s) as (h & Hs & Hout & _).
  exists h. split; [done|]. unfold flush, m_bind.
  destruct (validate_book validate s) as [[[]|e] s'] eqn:E; simpl in Hs; subst s'.
  - right. done.
  - left. eauto.
Qed.

Lemma write_pending_nothing s :
  new s = [] -> dirty s = [] -> deleted s = [] ->
  written (write_pending s) = written s.
Proof.
  intros Hn Hd Hx. unfold write_pending.
  rewrite (to_validate_nothing s Hn Hd Hx), elements_empty, Hx. done.
Qed.

(** X7: any change to the session makes [is_saved] false; a successful
    flush empties the pending lists without making the session saved and
    without storing anything; a successful commit makes it saved, the
    stored rows being the written ones. *)
Theorem is_saved_after_flush_and_commit s :
  (forall m, is_saved (mutate s m) = false) /\
  ((flush validate s).1 = Ok tt ->
   let s' := (flush validate s).2 in
   new s' = [] /\ dirty s' = [] /\ deleted s' = [] /\
   is_saved s' = is_saved s /\ stored s' = stored s) /\
  ((commit validate s).1 = Ok tt ->
   let s' := (commit validate s).2 in
   is_saved s' = true /\ stored s' = written s').
Proof.
  split_and!.
  - intros m. destruct (is_saved (mutate s m)) eqn:E; [|done].
    apply is_saved_true in E as (_ & Hn & Hd & _).
    destruct m; simpl in *; by destruct (new s), (dirty s).
  - intros Hok. destruct (flush_cases s) as (h & _ & [(e & Hf & _)|[Hf _]]).
    { rewrite Hf in Hok. done. }
    rewrite Hf. simpl. split_and!; try done.
    unfold is_saved at 1. simpl. by rewrite !orb_false_r, negb_involutive.
  - unfold commit, m_bind, m_get. destruct (commit_locked s); [done|].
    unfold sa_commit, m_bind.
    destruct (flush_cases s) as (h & _ & [(e & Hf & _)|[Hf _]]); rewrite Hf.
    { done. }
    intros _. simpl. done.
Qed.

Lemma perform_clean s a :
  Runs.clean s -> Runs.clean (Runs.perform validate s a).
Proof.
  unfold Runs.clean. intros Hc. destruct a as [m| |]; simpl.
  - by destruct m.
  - destruct (flush_cases s) as (h & _ & [(e & Hf & _)|[Hf _]]); rewrite Hf;
      cbn [snd].
    + done.
    + intros Hm. change (negb (is_saved s) = false) in Hm.
      apply negb_false_iff, is_saved_true in Hm as (Hm & Hn & Hd & Hx).
      rewrite (write_pending_nothing (set_heap h s)) by done.
      change (written s = stored s). auto.
  - unfold commit, m_bind, m_get. destruct (commit_locked s); [done|].
    unfold sa_commit, m_bind.
    destruct (flush_cases s) as (h & _ & [(e & Hf & _)|[Hf _]]); rewrite Hf; simpl.
    + done.
    + done.
Qed.


Lemma run_clean s0 acts : Runs.clean s0 -> Runs.clean (Runs.run validate s0 acts).
Proof.
  unfold Runs.run. revert s0. induction acts as [|a acts IH]; intros s0 Hc; [done|].
  simpl. apply IH. by apply perform_clean.
Qed.

(** X8: from a session whose written rows are the stored ones, whatever
    changes, flushes and commits follow, failed or not, when [is_saved]
    is true nothing is pending and nothing is written that is not stored. *)
Theorem is_saved_means_nothing_pending s0 acts :
  written s0 = stored s0 ->
  let s := Runs.run validate s0 acts in
  is_saved s = true ->
  written s = stored s /\ new s = [] /\ dirty s = [] /\ deleted s = [].
Proof.
  intros H0 s Hs.
  assert (Hc : Runs.clean s) by (apply run_clean; by intros _).
  apply is_saved_true in Hs as (Hm & Hn & Hd & Hx). auto.
Qed.

Lemma perform_locked s a :
  commit_locked s = true ->
  commit_locked (Runs.perform validate s a) = true /\
  stored (Runs.perform validate s a) = stored s.
Proof.
  intros Hl. destruct a as [m| |]; simpl.
  - by destruct m.
  - by destruct (flush_cases s) as (h & _ & [(e & Hf & _)|[Hf _]]); rewrite Hf.
  - by rewrite (SessionProps.commit_locked_raises validate s Hl).
Qed.

(** X9: the stored rows of a read-only session never change, whatever
    changes, flushes and commit attempts are made, and the session stays
    read-only. *)
Theorem readonly_session_stores_nothing s acts :
  commit_locked s = true ->
  stored (Runs.run validate s acts) = stored s /\
  commit_locked (Runs.run validate s acts) = true.
Proof.
  unfold Runs.run. revert s. induction acts as [|a acts IH]; intros s Hl; [done|].
  simpl. destruct (perform_locked s a Hl) as [Hl' Hst].
  destruct (IH _ Hl') as [IH1 IH2]. split; [congruence|done].
Qed.

End RunProps.


Lemma is_saved_after_flush_and_commit_witness :
  let v := Transaction.validate false in
  is_saved Fixtures.session0 = true /\
  is_saved Fixtures.batch_valid = false /\
  is_saved (flush v Fixtures.batch_valid).2 = false /\
  new (flush v Fixtures.batch_valid).2 = [] /\
  is_saved (commit v Fixtures.batch_valid).2 = true.
Proof.
  intros v.
  destruct (is_saved_after_flush_and_commit v Fixtures.batch_valid)
    as (_ & Hf & Hc).
  destruct Hf as (Hn & _ & _ & Hs & _); [reflexivity|].
  destruct Hc as (Hs' & _); [reflexivity|].
  split_and!; [reflexivity|reflexivity| |exact Hn|exact Hs'].
  rewrite Hs. reflexivity.
Defined.

Lemma is_saved_means_nothing_pending_witness :
  let v := Transaction.validate false in
  let s := Runs.run v Fixtures.session0
             [Runs.Change (Create (Fixtures.transaction_object Fixtures.tr_basic)
                                  Fixtures.tr_basic);
              Runs.Flush; Runs.Commit] in
  is_saved s = true /\ written s = stored s /\ new s = [].
Proof.
  intros v s.
  assert (Hs : is_saved s = true) by reflexivity.
  destruct (is_saved_means_nothing_pending v Fixtures.session0
              [Runs.Change (Create (Fixtures.transaction_object Fixtures.tr_basic)
                                   Fixtures.tr_basic);
               Runs.Flush; Runs.Commit] eq_refl Hs) as (Hw & Hn & _).
  split_and!; [exact Hs|exact Hw|exact Hn].
Defined.

Lemma readonly_session_stores_nothing_witness :
  let v := Transaction.validate false in
  let s0 := adapt_session Fixtures.session0 Fixtures.book0 true in
  let s := Runs.run v s0
             [Runs.Change (Create (Fixtures.transaction_object Fixtures.tr_basic)
                                  Fixtures.tr_basic);
              Runs.Flush; Runs.Commit] in
  stored s = ∅ /\ is_Some (written s !! "tr-basic").
Proof.
  intros v s0 s. split.
  - apply (readonly_session_stores_nothing v s0
             [Runs.Change (Create (Fixtures.transaction_object Fixtures.tr_basic)
                                  Fixtures.tr_basic);
              Runs.Flush; Runs.Commit]).
    reflexivity.
  - vm_compute. eauto.
Defined.

Section CreateBookProps.
Variable dialect : string -> string.

(** X10: [create_book] never looks at existing databases for an in-memory
    book; it reads a non-empty [sqlite_file] as [open_book] does; on an
    existing database it raises and touches nothing unless [overwrite] is
    set; otherwise, or when there is no such database, it starts from an
    empty database under that connection string, whatever the old one
    held, lock rows included, the other databases being untouched. *)
Theorem create_book_database_policy sqlite_file overwrite e uri :
  let create sf uc := CreateBook.create_book_database dialect sf uc overwrite e in
  (create None None = (Ok CreateBook.memory_uri, e) /\
   create sqlite_file (Some CreateBook.memory_uri)
     = (Ok CreateBook.memory_uri, e)) /\
  (forall f, f <> EmptyString ->
     create (Some f) None = create None (Some ("sqlite:///" +:+ f)) /\
     resolve_uri (Some f) None = Ok ("sqlite:///" +:+ f)) /\
  (uri <> CreateBook.memory_uri -> is_Some (databases e !! uri) ->
   overwrite = false ->
   create sqlite_file (Some uri) =
     (Raise (GnucashException ("'" +:+ uri +:+ "' db already exists")), e)) /\
  (uri <> CreateBook.memory_uri ->
   databases e !! uri = None \/ overwrite = true ->
   create sqlite_file (Some uri) =
     (Ok uri,
      mkEnv (<[uri := mkDatabase (dialect uri) [] ∅ [] ∅]> (databases e))
            (now_stamp e) (copies e) (copyfile e))).
Proof.
  intros create. subst create. cbv beta.
  unfold CreateBook.create_book_database. split; [|split; [|split]].
  - split; reflexivity.
  - intros f Hf. unfold resolve_uri, truthy. cbn [default].
    by rewrite decide_False.
  - intros Hne [db Hdb] ->. rewrite bool_decide_eq_true_2 by done.
    unfold m_bind, m_get. by rewrite Hdb.
  - intros Hne Hor. rewrite bool_decide_eq_true_2 by done.
    unfold m_bind, m_get, m_modify, m_ret.
    destruct (databases e !! uri) as [db|] eqn:Hdb.
    + destruct Hor as [?|Hov]; [done|]. rewrite Hov.
      unfold CreateBook.create_database, CreateBook.drop_database. cbn.
      by rewrite insert_delete_eq.
    + reflexivity.
Qed.

End CreateBookProps.

Lemma create_book_database_policy_witness :
  let create ow :=
    CreateBook.create_book_database (fun _ => "sqlite") None (Some Fixtures.uri0)
                                    ow MoreFixtures.env_locked in
  create false =
    (Raise (GnucashException "'sqlite:///book.gnucash' db already exists"),
     MoreFixtures.env_locked) /\
  (create true).1 = Ok Fixtures.uri0 /\
  databases (create true).2 !! Fixtures.uri0 = Some (mkDatabase "sqlite" [] ∅ [] ∅).
Proof.
  intros create. subst create. cbv beta.
  destruct (create_book_database_policy (fun _ => "sqlite") None false
              MoreFixtures.env_locked Fixtures.uri0) as (_ & _ & Hex & _).
  destruct (create_book_database_policy (fun _ => "sqlite") None true
              MoreFixtures.env_locked Fixtures.uri0) as (_ & _ & _ & Hnew).
  split_and!.
  - apply Hex; [discriminate|by eexists|reflexivity].
  - rewrite Hnew; [reflexivity|discriminate|by right].
  - rewrite Hnew; [|discriminate|by right]. apply lookup_insert_eq.
Defined.

End SessionExtras.
